(** * Audit and compliance service (app.py): a shallow embedding

    The service has three request handlers, [audit_transaction],
    [generate_report] and [update_compliance], and one helper,
    [check_compliance].  Rules are stored as text; a rule is checked by
    rendering its text with [str.format(transaction=transaction)] and
    handing the result to Python's [eval].

    What the embedding fixes and what it leaves open:
    - Python values are the JSON values a request can carry, floats being
      IEEE binary64 numbers ([spec_float]), plus opaque objects that only
      [eval] can produce.  The texts of the exceptions are those of
      CPython 3.11.
    - The two Cosmos containers and the log are the state of a small state
      and exception monad.  A container is the list of its documents in the
      order [read_all_items] yields them; [upsert_item] may be refused by
      the store, reads are taken to succeed.
    - [float] on strings, [str.format], [eval], [str] and [repr] belong to
      the Python runtime: they are the fields of the class [PyRuntime], and
      every theorem holds for every runtime.
    - [eval] is called without globals and locals, so the text runs with
      the locals of [check_compliance] and the globals of the module in
      reach.  The runtime therefore gets the four locals and the state, and
      hands all of them back as the text has left them: the transaction,
      the list under iteration, the issue list, the rule at hand, the two
      containers and the log.  A text may also never return.  What a text
      does to the interpreter beyond these objects (rebinding a name of the
      module, say) is outside the embedding.
    - [for rule in rules] walks the list as it is at each turn, by index.
      A text can make the list grow, so the loop of the embedding is given
      a bound on its turns; a run that needs more has no result.  A result
      reached within a bound is reached within every larger one
      ([audit_transaction_more_fuel]), and the statements on runs that come
      to an end hold for every bound from the length of the rule list on.
    - A document of the rule container has the three fields that
      [update_compliance] writes, the only writer of rules in the program;
      [check_compliance] gets it as a dict and reads its fields anew at
      every use. *)

From stdpp Require Import gmap strings list.
From Stdlib Require Import ZArith Floats.SpecFloat.

#[local] Set Warnings "-register-all".
#[local] Open Scope string_scope.
#[local] Open Scope list_scope.

(** ** Python values *)

Inductive pyval :=
| PyNone
| PyBool (b : bool)
| PyInt (z : Z)
| PyFloat (f : spec_float)
| PyStr (s : string)
| PyList (l : list pyval)
| PyDict (d : gmap string pyval)
| PyObj (name : string) (truth : bool).

Abbreviation dict := (gmap string pyval).

(** Truth value of an object, as [not] and [if] take it. *)
Definition py_bool (v : pyval) : bool :=
  match v with
  | PyNone => false
  | PyBool b => b
  | PyInt z => negb (z =? 0)%Z
  | PyFloat (S754_zero _) => false
  | PyFloat _ => true
  | PyStr s => negb (String.eqb s "")
  | PyList l => negb (Nat.eqb (length l) 0)
  | PyDict d => negb (Nat.eqb (size d) 0)
  | PyObj _ truth => truth
  end.

(** [type(v).__name__] *)
Definition type_name (v : pyval) : string :=
  match v with
  | PyNone => "NoneType"
  | PyBool _ => "bool"
  | PyInt _ => "int"
  | PyFloat _ => "float"
  | PyStr _ => "str"
  | PyList _ => "list"
  | PyDict _ => "dict"
  | PyObj name _ => name
  end.

(** ** Exceptions *)

Inductive exc_class :=
| ValueError
| TypeError
| KeyError
| AttributeError
| OverflowError
| OtherException (name : string)   (* derives from Exception, not from ValueError *)
| SystemExit
| KeyboardInterrupt
| GeneratorExit.

Record exn := Exn { exn_class : exc_class; exn_str : string }.

(** [except Exception] *)
Definition is_Exception (e : exn) : bool :=
  match exn_class e with
  | SystemExit | KeyboardInterrupt | GeneratorExit => false
  | _ => true
  end.

(** [except ValueError] *)
Definition is_ValueError (e : exn) : bool :=
  match exn_class e with
  | ValueError => true
  | _ => false
  end.

Inductive outcome (A : Type) :=
| Returned (a : A)
| Raised (e : exn).
Arguments Returned {A} a.
Arguments Raised {A} e.

(** ** Documents, log and state *)

(** A document of the 'ComplianceRules' container, as [update_compliance]
    writes it. *)
Record rule_doc := RuleDoc {
  rule_id : string;
  rule_description : pyval;
  rule_check : pyval
}.

Inductive log_message :=
| CheckingRule (description : pyval)
| RuleViolation (description : pyval)
| ErrorEvaluatingRule (description : pyval) (e : exn)
| ErrorConvertingAmount (e : exn)
| ErrorSubmittingData (e : exn)
| ErrorUpdatingCompliance (e : exn).

Inductive log_record :=
| LogInfo (m : log_message)
| LogError (m : log_message).

Record world := World {
  transaction_container : list dict;
  rule_container : list rule_doc;
  log : list log_record
}.

(** What the environment decides for one request: the uuid drawn, whether
    the store refuses the write, and what the chat model answers. *)
Record env := Env {
  uuid4 : string;
  upsert_item_fault : option exn;
  perform_query_chat : string -> outcome pyval
}.

Record response := Response { body : pyval; status : Z }.

(** ** The monad of the handlers *)

Definition M (A : Type) : Type := world -> outcome A * world.

Definition ret {A} (a : A) : M A := fun w => (Returned a, w).

Definition raise {A} (e : exn) : M A := fun w => (Raised e, w).

Definition bind {A B} (m : M A) (k : A -> M B) : M B :=
  fun w =>
    match m w with
    | (Returned a, w') => k a w'
    | (Raised e, w') => (Raised e, w')
    end.

Notation "'let*' x ':=' m 'in' k" := (bind m (fun x => k))
  (at level 10, x pattern, m at level 100, k at level 200).

Definition lift {A} (o : outcome A) : M A :=
  match o with
  | Returned a => ret a
  | Raised e => raise e
  end.

(** [try: body except <class> as e: handler e] *)
Definition try_except {A} (body : M A) (catches : exn -> bool) (handler : exn -> M A) : M A :=
  fun w =>
    match body w with
    | (Raised e, w') => if catches e then handler e w' else (Raised e, w')
    | r => r
    end.

Definition logging_info (m : log_message) : M unit :=
  fun w => (Returned tt, World (transaction_container w) (rule_container w) (log w ++ [LogInfo m])).

Definition logging_error (m : log_message) : M unit :=
  fun w => (Returned tt, World (transaction_container w) (rule_container w) (log w ++ [LogError m])).

Definition logged (w : world) (l : list log_record) : world :=
  World (transaction_container w) (rule_container w) (log w ++ l).

(** ** Computations that may not return

    [None] stands for a call that has no result: the text given to [eval]
    runs for ever, or the loop has used up its turns. *)

Definition P (A : Type) : Type := world -> option (outcome A * world).

Definition total {A} (m : M A) : P A := fun w => Some (m w).

Definition pbind {A B} (m : P A) (k : A -> P B) : P B :=
  fun w =>
    match m w with
    | Some (Returned a, w') => k a w'
    | Some (Raised e, w') => Some (Raised e, w')
    | None => None
    end.

Notation "'let+' x ':=' m 'in' k" := (pbind m (fun x => k))
  (at level 10, x pattern, m at level 100, k at level 200).

(** ** The containers *)

(** [upsert_item]: the document with the same id is replaced where it
    stands, a new one goes to the end. *)
Fixpoint upsert {A} (key : A -> option string) (x : A) (l : list A) : list A :=
  match l with
  | [] => [x]
  | y :: l' => if decide (key y = key x) then x :: l' else y :: upsert key x l'
  end.

Definition doc_id (d : dict) : option string :=
  match d !! "id" with
  | Some (PyStr s) => Some s
  | _ => None
  end.

Definition bad_request : exn := Exn (OtherException "CosmosHttpResponseError") "BadRequest".

Definition transaction_container_upsert_item (E : env) (d : dict) : M unit :=
  fun w =>
    match upsert_item_fault E with
    | Some e => (Raised e, w)
    | None =>
        match doc_id d with
        | None => (Raised bad_request, w)
        | Some _ =>
            (Returned tt,
             World (upsert doc_id d (transaction_container w)) (rule_container w) (log w))
        end
    end.

Definition rule_container_upsert_item (E : env) (r : rule_doc) : M unit :=
  fun w =>
    match upsert_item_fault E with
    | Some e => (Raised e, w)
    | None =>
        (Returned tt,
         World (transaction_container w)
               (upsert (fun r => Some (rule_id r)) r (rule_container w)) (log w))
    end.

Definition transaction_container_read_all_items : M (list dict) :=
  fun w => (Returned (transaction_container w), w).

(** A rule document as the dict the client library hands out. *)
Definition rule_dict (r : rule_doc) : dict :=
  <["rule_check" := rule_check r]>
    (<["rule_description" := rule_description r]>
       (<["id" := PyStr (rule_id r)]> (∅ : dict))).

Definition rule_container_read_all_items : M (list dict) :=
  fun w => (Returned (map rule_dict (rule_container w)), w).

(** ** The Python runtime *)

(** The locals of [check_compliance] when line 117 runs.  [sc_rule] is an
    element of [sc_rules]: a text that changes the one changes the other,
    and the runtime hands back both. *)
Record scope := Scope {
  sc_transaction : dict;
  sc_rules : list dict;
  sc_compliance_issues : list pyval;
  sc_rule : dict
}.

(** What [eval] gives back: nothing if the text never returns, else a value
    or an exception, with the locals and the state as the text has left
    them. *)
Definition eval_result : Type := option (outcome pyval * scope * world).

Class PyRuntime := {
  (** [float(s)] for a string: [None] is ValueError *)
  float_of_str : string -> option spec_float;
  (** [s.format(transaction=transaction)] *)
  str_format : string -> dict -> outcome string;
  (** [eval(text)] inside [check_compliance] *)
  py_eval : string -> scope -> world -> eval_result;
  (** [str(v)], as an f-string renders a value *)
  py_str : pyval -> string;
  (** [repr(v)] *)
  py_repr : pyval -> string
}.

Definition float_of_Z (z : Z) : outcome spec_float :=
  match binary_normalize 53 1024 z 0 false with
  | S754_infinity _ => Raised (Exn OverflowError "int too large to convert to float")
  | f => Returned f
  end.

Definition float_one : spec_float := Eval vm_compute in binary_normalize 53 1024 1 0 false.

Definition float_of_bool (b : bool) : spec_float :=
  if b then float_one else S754_zero false.

Definition float_type_error (type_name : string) : exn :=
  Exn TypeError ("float() argument must be a string or a real number, not '"
                 +:+ type_name +:+ "'").

(** [float(v)] *)
Definition py_float `{RT : PyRuntime} (v : pyval) : outcome spec_float :=
  match v with
  | PyFloat f => Returned f
  | PyInt z => float_of_Z z
  | PyBool b => Returned (float_of_bool b)
  | PyStr s =>
      match float_of_str s with
      | Some f => Returned f
      | None =>
          Raised (Exn ValueError ("could not convert string to float: " +:+ py_repr (PyStr s)))
      end
  | _ => Raised (float_type_error (type_name v))
  end.

(** [v[k]] for a string key *)
Definition getitem (v : pyval) (k : string) : outcome pyval :=
  match v with
  | PyDict d =>
      match d !! k with
      | Some x => Returned x
      | None => Raised (Exn KeyError ("'" +:+ k +:+ "'"))
      end
  | PyList _ => Raised (Exn TypeError "list indices must be integers or slices, not str")
  | PyStr _ => Raised (Exn TypeError "string indices must be integers, not 'str'")
  | _ => Raised (Exn TypeError ("'" +:+ type_name v +:+ "' object is not subscriptable"))
  end.

(** ** check_compliance *)

(** The locals the loop carries from turn to turn. *)
Record frame := Frame {
  fr_transaction : dict;
  fr_rules : list dict;
  fr_compliance_issues : list pyval
}.

Definition in_scope (fr : frame) (rule : dict) : scope :=
  Scope (fr_transaction fr) (fr_rules fr) (fr_compliance_issues fr) rule.

Definition frame_of (sc : scope) : frame :=
  Frame (sc_transaction sc) (sc_rules sc) (sc_compliance_issues sc).

Section Handlers.
Context `{RT : PyRuntime}.

Definition invalid_amount_issue : pyval := PyStr "Invalid transaction amount format".

(** [check.format(transaction=transaction)]: only a string has a [format]
    method. *)
Definition rule_check_format (check : pyval) (transaction : dict) : outcome string :=
  match check with
  | PyStr s => str_format s transaction
  | _ => Raised (Exn AttributeError
                   ("'" +:+ type_name check +:+ "' object has no attribute 'format'"))
  end.

(** [eval(rule['rule_check'].format(transaction=transaction))] (line 117) *)
Definition evaluate_rule (sc : scope) (w : world) : eval_result :=
  match getitem (PyDict (sc_rule sc)) "rule_check" with
  | Raised e => Some (Raised e, sc, w)
  | Returned check =>
      match rule_check_format check (sc_transaction sc) with
      | Raised e => Some (Raised e, sc, w)
      | Returned text => py_eval text sc w
      end
  end.

(** The handler of line 120, with the locals as the body of [try] has left
    them: the description is read from the rule again. *)
Definition rule_error (sc : scope) (e : exn) : P frame :=
  if is_Exception e then
    match getitem (PyDict (sc_rule sc)) "rule_description" with
    | Raised e' => fun w => Some (Raised e', w)
    | Returned description =>
        let+ _ := total (logging_error (ErrorEvaluatingRule description e)) in
        fun w => Some (Returned (frame_of sc), w)
    end
  else fun w => Some (Raised e, w).

(** One turn of the loop (lines 115-121). *)
Definition rule_step (fr : frame) (rule : dict) : P frame :=
  fun w =>
    match getitem (PyDict rule) "rule_description" with
    | Raised e => Some (Raised e, w)
    | Returned description =>
        match evaluate_rule (in_scope fr rule) (logged w [LogInfo (CheckingRule description)]) with
        | None => None
        | Some (Raised e, sc, w') => rule_error sc e w'
        | Some (Returned v, sc, w') =>
            if negb (py_bool v) then
              match getitem (PyDict (sc_rule sc)) "rule_description" with
              | Raised e => rule_error sc e w'
              | Returned description' =>
                  Some (Returned (Frame (sc_transaction sc) (sc_rules sc)
                                        (sc_compliance_issues sc ++ [description'])),
                        logged w' [LogInfo (RuleViolation description')])
              end
            else Some (Returned (frame_of sc), w')
        end
    end.

(** [for rule in rules: ...] (lines 114-121): [i] is the position of the
    iterator in the list as it is now, [fuel] bounds the turns. *)
Fixpoint rule_loop (fuel i : nat) (fr : frame) : P frame :=
  match fr_rules fr !! i with
  | None => fun w => Some (Returned fr, w)
  | Some rule =>
      match fuel with
      | O => fun _ => None
      | S fuel' =>
          let+ fr' := rule_step fr rule in
          rule_loop fuel' (S i) fr'
      end
  end.

(** [check_compliance(transaction)].  The dict is the caller's: the
    function returns it next to the issue list, as it has left it. *)
Definition check_compliance (fuel : nat) (transaction : dict) : P (list pyval * dict) :=
  let+ converted :=
    total (try_except
             (let* amount := lift (getitem (PyDict transaction) "amount") in
              let* f := lift (py_float amount) in
              ret (Some (<["amount" := PyFloat f]> transaction)))
             is_ValueError
             (fun e =>
                let* _ := logging_error (ErrorConvertingAmount e) in
                ret None)) in
  match converted with
  | None => total (ret ([invalid_amount_issue], transaction))
  | Some transaction =>
      let+ rules := total rule_container_read_all_items in
      let+ fr := rule_loop fuel 0 (Frame transaction rules []) in
      total (ret (fr_compliance_issues fr, fr_transaction fr))
  end.

(** ** The request handlers *)

Definition jsonify (fields : list (string * pyval)) : pyval :=
  PyDict (list_to_map fields).

(** [POST /audit] *)
Definition audit_transaction (fuel : nat) (E : env) (data : pyval) : P response :=
  let+ built :=
    total (try_except
             (let* date := lift (getitem data "date") in
              let* description := lift (getitem data "description") in
              let* amount := lift (getitem data "amount") in
              let* f := lift (py_float amount) in
              ret (inl (<["is_compliant" := PyBool true]>
                        (<["amount" := PyFloat f]>
                         (<["description" := description]>
                          (<["date" := date]>
                           (<["id" := PyStr (uuid4 E)]> (∅ : dict))))))))
             is_ValueError
             (fun e =>
                let* _ := logging_error (ErrorConvertingAmount e) in
                ret (inr (Response (jsonify [("error", PyStr "Invalid amount format")]) 400)))) in
  match built with
  | inr resp => total (ret resp)
  | inl transaction =>
      let+ (compliance_issues, transaction) := check_compliance fuel transaction in
      let transaction :=
        <["is_compliant" := PyBool (Nat.eqb (length compliance_issues) 0)]> transaction in
      let transaction :=
        <["compliance_issues" := PyList compliance_issues]> transaction in
      total (try_except
               (let* _ := transaction_container_upsert_item E transaction in
                let* transaction_id := lift (getitem (PyDict transaction) "id") in
                let* is_compliant := lift (getitem (PyDict transaction) "is_compliant") in
                ret (Response (jsonify [("transaction_id", transaction_id);
                                        ("compliance_issues", PyList compliance_issues);
                                        ("is_compliant", is_compliant)]) 201))
               is_Exception
               (fun e =>
                  let* _ := logging_error (ErrorSubmittingData e) in
                  ret (Response (jsonify [("error", PyStr (exn_str e))]) 500)))
  end.

(** [[t for t in transactions if not t['is_compliant']]] *)
Fixpoint non_compliant (transactions : list dict) : outcome (list dict) :=
  match transactions with
  | [] => Returned []
  | t :: transactions' =>
      match getitem (PyDict t) "is_compliant" with
      | Raised e => Raised e
      | Returned v =>
          match non_compliant transactions' with
          | Raised e => Raised e
          | Returned l => Returned (if negb (py_bool v) then t :: l else l)
          end
      end
  end.

Definition nl : string := String (Ascii.ascii_of_nat 10) "".

(** [sep.join(l)] *)
Fixpoint join (sep : string) (l : list string) : string :=
  match l with
  | [] => ""
  | [x] => x
  | x :: l' => x +:+ sep +:+ join sep l'
  end.

(** The f-string of line 135. *)
Definition detailed_transaction (t : dict) : outcome string :=
  match getitem (PyDict t) "id" with
  | Raised e => Raised e
  | Returned id =>
  match getitem (PyDict t) "date" with
  | Raised e => Raised e
  | Returned date =>
  match getitem (PyDict t) "description" with
  | Raised e => Raised e
  | Returned description =>
  match getitem (PyDict t) "amount" with
  | Raised e => Raised e
  | Returned amount =>
  match getitem (PyDict t) "compliance_issues" with
  | Raised e => Raised e
  | Returned issues =>
      Returned ("Transaction ID: " +:+ py_str id +:+ ", Date: " +:+ py_str date
                +:+ ", Description: " +:+ py_str description
                +:+ ", Amount: " +:+ py_str amount
                +:+ ", Issues: " +:+ py_str issues)
  end end end end end.

Fixpoint detailed_transactions (ts : list dict) : outcome (list string) :=
  match ts with
  | [] => Returned []
  | t :: ts' =>
      match detailed_transaction t with
      | Raised e => Raised e
      | Returned line =>
          match detailed_transactions ts' with
          | Raised e => Raised e
          | Returned lines => Returned (line :: lines)
          end
      end
  end.

Definition detailed_prompt (lines : list string) : string :=
  "Generate an audit report for the following non-compliant transactions:" +:+ nl
  +:+ join nl lines
  +:+ nl +:+ "Objective: Streamline audit and compliance." +:+ nl
  +:+ "Challenge: Automate transaction auditing, detect non-compliance, generate reports with minimal human intervention, and update compliance requirements." +:+ nl
  +:+ "Structure:" +:+ nl
  +:+ "1. Introduction: Overview of the audit objective and challenges." +:+ nl
  +:+ "2. Summary: Summary of non-compliant transactions." +:+ nl
  +:+ "3. Details: For each non-compliant transaction, provide:" +:+ nl
  +:+ "   - Transaction ID" +:+ nl
  +:+ "   - Transaction Details" +:+ nl
  +:+ "   - Issues" +:+ nl.

Definition no_violations : response :=
  Response (jsonify [("report", PyStr "No non-compliant transactions found.")]) 200.

(** [GET /generate_report] *)
Definition generate_report (E : env) : M response :=
  let* transactions := transaction_container_read_all_items in
  let* non_compliant_transactions := lift (non_compliant transactions) in
  match non_compliant_transactions with
  | [] => ret no_violations
  | _ =>
      let* lines := lift (detailed_transactions non_compliant_transactions) in
      let* assistant_message := lift (perform_query_chat E (detailed_prompt lines)) in
      ret (Response (jsonify [("report", assistant_message)]) 200)
  end.

End Handlers.

(** [POST /update_compliance] *)
Definition update_compliance (E : env) (data : pyval) : M response :=
  let* description := lift (getitem data "rule_description") in
  let* check := lift (getitem data "rule_check") in
  let new_rule := RuleDoc (uuid4 E) description check in
  try_except
    (let* _ := rule_container_upsert_item E new_rule in
     ret (Response (jsonify [("status", PyStr "success");
                             ("rule_id", PyStr (rule_id new_rule))]) 201))
    is_Exception
    (fun e =>
       let* _ := logging_error (ErrorUpdatingCompliance e) in
       ret (Response (jsonify [("error", PyStr (exn_str e))]) 500)).

Definition run {A} (m : M A) (w : world) : outcome A * world := m w.

Definition run_partial {A} (m : P A) (w : world) : option (outcome A * world) := m w.
(** ** Vocabulary of the statements *)

(** A stored transaction whose verdict agrees with its issue list. *)
Definition consistent (t : dict) : Prop :=
  exists issues,
    t !! "compliance_issues" = Some (PyList issues) /\
    t !! "is_compliant" = Some (PyBool (Nat.eqb (length issues) 0)).

(** Every stored transaction counts as compliant for [generate_report]. *)
Definition all_compliant (transactions : list dict) : Prop :=
  Forall (fun t : dict => exists v, t !! "is_compliant" = Some v /\ py_bool v = true)
         transactions.

(** The payload of [POST /update_compliance]. *)
Definition rule_payload (description check : pyval) : pyval :=
  PyDict (<["rule_check" := check]> (<["rule_description" := description]> ∅)).

(** The payload of [POST /audit]. *)
Definition audit_payload (date description amount : pyval) : pyval :=
  PyDict (<["amount" := amount]> (<["description" := description]> (<["date" := date]> ∅))).

(** The transaction [audit_transaction] builds before the check. *)
Definition new_transaction (id : string) (date description : pyval) (f : spec_float) : dict :=
  <["is_compliant" := PyBool true]>
    (<["amount" := PyFloat f]>
       (<["description" := description]>
          (<["date" := date]>
             (<["id" := PyStr id]> (∅ : dict))))).

(** The transaction as line 90 leaves it. *)
Definition stored_transaction (issues : list pyval) (transaction : dict) : dict :=
  <["compliance_issues" := PyList issues]>
    (<["is_compliant" := PyBool (Nat.eqb (length issues) 0)]> transaction).

(** The body and status of line 94. *)
Definition audit_response (transaction_id : pyval) (issues : list pyval) : response :=
  Response (jsonify [("transaction_id", transaction_id);
                     ("compliance_issues", PyList issues);
                     ("is_compliant", PyBool (Nat.eqb (length issues) 0))]) 201.

(** The computation writes to neither container. *)
Definition keeps_containers {A} (m : M A) : Prop :=
  forall w,
    transaction_container (snd (m w)) = transaction_container w /\
    rule_container (snd (m w)) = rule_container w.

Section Vocabulary.
Context `{RT : PyRuntime}.

(** The first phase of [audit_transaction] (lines 76-86): the transaction,
    or the answer 400. *)
Definition build_transaction (E : env) (data : pyval) : M (dict + response) :=
  try_except
    (let* date := lift (getitem data "date") in
     let* description := lift (getitem data "description") in
     let* amount := lift (getitem data "amount") in
     let* f := lift (py_float amount) in
     ret (inl (new_transaction (uuid4 E) date description f)))
    is_ValueError
    (fun e =>
       let* _ := logging_error (ErrorConvertingAmount e) in
       ret (inr (Response (jsonify [("error", PyStr "Invalid amount format")]) 400))).

(** Its last phase (lines 92-101), run on the transaction as line 90
    leaves it. *)
Definition submit_transaction (E : env) (issues : list pyval) (transaction : dict)
    : M response :=
  try_except
    (let* _ := transaction_container_upsert_item E (stored_transaction issues transaction) in
     let* transaction_id :=
       lift (getitem (PyDict (stored_transaction issues transaction)) "id") in
     let* is_compliant :=
       lift (getitem (PyDict (stored_transaction issues transaction)) "is_compliant") in
     ret (Response (jsonify [("transaction_id", transaction_id);
                             ("compliance_issues", PyList issues);
                             ("is_compliant", is_compliant)]) 201))
    is_Exception
    (fun e =>
       let* _ := logging_error (ErrorSubmittingData e) in
       ret (Response (jsonify [("error", PyStr (exn_str e))]) 500)).

(** The first phase of [check_compliance] (lines 105-109): the transaction
    with its amount as a float, or nothing after a ValueError. *)
Definition convert_amount (transaction : dict) : M (option dict) :=
  try_except
    (let* amount := lift (getitem (PyDict transaction) "amount") in
     let* f := lift (py_float amount) in
     ret (Some (<["amount" := PyFloat f]> transaction)))
    is_ValueError
    (fun e =>
       let* _ := logging_error (ErrorConvertingAmount e) in
       ret None).

(** The locals at line 117 when the rules are those read from the
    container and the rule at hand is one of them. *)
Definition rule_scope (rules : list rule_doc) (rule : rule_doc)
    (transaction : dict) (issues : list pyval) : scope :=
  Scope transaction (map rule_dict rules) issues (rule_dict rule).

(** The locals between two turns. *)
Definition rule_frame (rules : list rule_doc) (transaction : dict) (issues : list pyval)
    : frame :=
  Frame transaction (map rule_dict rules) issues.

(** The rule text, as evaluated, comes back and has written nothing: the
    locals and the state are as before. *)
Definition effect_free (rules : list rule_doc) (rule : rule_doc) : Prop :=
  forall transaction issues w,
    exists o,
      evaluate_rule (rule_scope rules rule transaction issues) w
      = Some (o, rule_scope rules rule transaction issues, w).

(** Whatever the rule text raises is caught by [except Exception]. *)
Definition raises_only_Exception (rules : list rule_doc) (rule : rule_doc) : Prop :=
  forall transaction issues w e sc w',
    evaluate_rule (rule_scope rules rule transaction issues) w = Some (Raised e, sc, w') ->
    is_Exception e = true.


(** The state in which line 117 runs, [w] being the state at the start of
    the turn. *)
Definition checking (rule : rule_doc) (w : world) : world :=
  logged w [LogInfo (CheckingRule (rule_description rule))].

(** The rule text evaluates to a false value; [w] is the state in which
    line 117 runs. *)
Definition violated (rules : list rule_doc) (rule : rule_doc)
    (transaction : dict) (issues : list pyval) (w : world) : bool :=
  match evaluate_rule (rule_scope rules rule transaction issues) w with
  | Some (Returned v, _, _) => negb (py_bool v)
  | _ => false
  end.

(** The log lines of one turn of the loop that starts in [w]. *)
Definition step_log (rules : list rule_doc) (rule : rule_doc)
    (transaction : dict) (issues : list pyval) (w : world) : list log_record :=
  LogInfo (CheckingRule (rule_description rule)) ::
  match evaluate_rule (rule_scope rules rule transaction issues) (checking rule w) with
  | Some (Returned v, _, _) =>
      if py_bool v then [] else [LogInfo (RuleViolation (rule_description rule))]
  | Some (Raised e, _, _) => [LogError (ErrorEvaluatingRule (rule_description rule) e)]
  | None => []
  end.

(** The issue list after one turn. *)
Definition step_issues (rules : list rule_doc) (rule : rule_doc)
    (transaction : dict) (issues : list pyval) (w : world) : list pyval :=
  if violated rules rule transaction issues (checking rule w)
  then issues ++ [rule_description rule] else issues.

(** The rules of [rest] that are violated, in the order of [rest]; every
    rule is judged with the issues of the rules before it in scope and the
    log lines of the turns before it written. *)
Fixpoint violated_rules (rules rest : list rule_doc)
    (transaction : dict) (issues : list pyval) (w : world) : list rule_doc :=
  match rest with
  | [] => []
  | rule :: rest' =>
      let later :=
        violated_rules rules rest' transaction
          (step_issues rules rule transaction issues w)
          (logged w (step_log rules rule transaction issues w)) in
      if violated rules rule transaction issues (checking rule w)
      then rule :: later else later
  end.

(** The log lines of the turns for [rest]. *)
Fixpoint loop_log (rules rest : list rule_doc)
    (transaction : dict) (issues : list pyval) (w : world) : list log_record :=
  match rest with
  | [] => []
  | rule :: rest' =>
      step_log rules rule transaction issues w ++
      loop_log rules rest' transaction
        (step_issues rules rule transaction issues w)
        (logged w (step_log rules rule transaction issues w))
  end.

(** The issue list after the turns for [pre]. *)
Definition issues_after (rules pre : list rule_doc) (transaction : dict)
    (issues : list pyval) (w : world) : list pyval :=
  issues ++ map rule_description (violated_rules rules pre transaction issues w).

(** The descriptions logged by "Checking rule", oldest first. *)
Fixpoint checked (l : list log_record) : list pyval :=
  match l with
  | [] => []
  | LogInfo (CheckingRule d) :: l' => d :: checked l'
  | _ :: l' => checked l'
  end.

End Vocabulary.

(** ** An excerpt of CPython for the examples

    The answers CPython gives on the few inputs the examples below use.
    On every other input the excerpt answers something too, which stands
    for nothing. *)

#[local] Instance spec_float_eq_dec : EqDecision spec_float.
Proof. solve_decision. Defined.

Definition f1500 : spec_float := Eval vm_compute in binary_normalize 53 1024 1500 0 false.
Definition f500 : spec_float := Eval vm_compute in binary_normalize 53 1024 500 0 false.
Definition f12_5 : spec_float := Eval vm_compute in binary_normalize 53 1024 25 (-1) false.

Definition excerpt_float_of_str (s : string) : option spec_float :=
  if decide (s = "1500.0") then Some f1500
  else if decide (s = "500.0") then Some f500
  else if decide (s = "12.5") then Some f12_5
  else None.

Definition excerpt_str (v : pyval) : string :=
  match v with
  | PyStr s => s
  | PyFloat f =>
      if decide (f = f1500) then "1500.0"
      else if decide (f = f500) then "500.0"
      else if decide (f = f12_5) then "12.5"
      else "?"
  | _ => "?"
  end.

(** [repr] of a string of letters and digits puts it between single
    quotes. *)
Definition excerpt_repr (v : pyval) : string :=
  match v with
  | PyStr s => "'" +:+ s +:+ "'"
  | _ => excerpt_str v
  end.

Definition excerpt_format (s : string) (transaction : dict) : outcome string :=
  if decide (s = "{transaction[amount]} > 1000") then
    match transaction !! "amount" with
    | Some v => Returned (excerpt_str v +:+ " > 1000")
    | None => Raised (Exn KeyError "'amount'")
    end
  else if decide (s = "{transaction[foo]} > 10") then
    match transaction !! "foo" with
    | Some v => Returned (excerpt_str v +:+ " > 10")
    | None => Raised (Exn KeyError "'foo'")
    end
  else Returned s.

Definition zero_division : exn :=
  Exn (OtherException "ZeroDivisionError") "division by zero".

(** Texts that write nothing. *)
Definition excerpt_value (text : string) : outcome pyval :=
  if decide (text = "1500.0 > 1000") then Returned (PyBool true)
  else if decide (text = "500.0 > 1000") then Returned (PyBool false)
  else if decide (text = "1/0") then Raised zero_division
  else Raised (Exn (OtherException "SyntaxError") "invalid syntax").

Definition excerpt_eval (text : string) (sc : scope) (w : world) : eval_result :=
  Some (excerpt_value text, sc, w).

Definition excerpt : PyRuntime := {|
  float_of_str := excerpt_float_of_str;
  str_format := excerpt_format;
  py_eval := excerpt_eval;
  py_str := excerpt_str;
  py_repr := excerpt_repr
|}.



(** *** Texts that write

    Every name a text can use is an object [check_compliance] or the module
    holds, and an expression can call its methods.  None of these texts has
    a brace, so [str.format] hands each of them on as it is. *)

Definition planting_text : string :=
  "transaction_container.upsert_item(dict(id='t1', is_compliant=True, compliance_issues=['planted']))".

(** The document a text hands to [transaction_container.upsert_item]. *)
Definition planted : dict :=
  <["compliance_issues" := PyList [PyStr "planted"]]>
    (<["is_compliant" := PyBool true]>
       (<["id" := PyStr "t1"]> (∅ : dict))).

(** [rule.pop('rule_description')]: the rule is an element of [rules], so
    the element loses the key as well. *)
Definition pop_description (sc : scope) : scope :=
  Scope (sc_transaction sc)
        (map (fun r : dict =>
                if decide (doc_id r = doc_id (sc_rule sc))
                then delete "rule_description" r else r)
             (sc_rules sc))
        (sc_compliance_issues sc)
        (delete "rule_description" (sc_rule sc)).

Definition effectful_eval (text : string) (sc : scope) (w : world) : eval_result :=
  if decide (text = "transaction.__setitem__('amount', 0.0)") then
    Some (Returned PyNone,
          Scope (<["amount" := PyFloat (S754_zero false)]> (sc_transaction sc))
                (sc_rules sc) (sc_compliance_issues sc) (sc_rule sc),
          w)
  else if decide (text = "rules.clear() or 1/0") then
    Some (Raised zero_division,
          Scope (sc_transaction sc) [] (sc_compliance_issues sc) (sc_rule sc),
          w)
  else if decide (text = "compliance_issues.clear()") then
    Some (Returned PyNone,
          Scope (sc_transaction sc) (sc_rules sc) [] (sc_rule sc),
          w)
  else if decide (text = "compliance_issues.append('x') or 1/0") then
    Some (Raised zero_division,
          Scope (sc_transaction sc) (sc_rules sc)
                (sc_compliance_issues sc ++ [PyStr "x"]) (sc_rule sc),
          w)
  else if decide (text = "rule.pop('rule_description') and False") then
    match sc_rule sc !! "rule_description" with
    | Some d =>
        Some (Returned (if py_bool d then PyBool false else d), pop_description sc, w)
    | None => Some (Raised (Exn KeyError "'rule_description'"), sc, w)
    end
  else if decide (text = planting_text) then
    Some (Returned (PyDict planted), sc,
          World (upsert doc_id planted (transaction_container w))
                (rule_container w) (log w))
  else excerpt_eval text sc w.

Definition effectful : PyRuntime := {|
  float_of_str := excerpt_float_of_str;
  str_format := excerpt_format;
  py_eval := effectful_eval;
  py_str := excerpt_str;
  py_repr := excerpt_repr
|}.

(** Sample rules and states. *)
Definition resets_amount (id : string) : rule_doc :=
  RuleDoc id (PyStr "resets the amount") (PyStr "transaction.__setitem__('amount', 0.0)").


Definition clears_issues (id : string) : rule_doc :=
  RuleDoc id (PyStr "empties the issue list") (PyStr "compliance_issues.clear()").

Definition appends_issue (id : string) : rule_doc :=
  RuleDoc id (PyStr "adds an issue and fails") (PyStr "compliance_issues.append('x') or 1/0").

Definition pops_description (id : string) : rule_doc :=
  RuleDoc id (PyStr "drops its description") (PyStr "rule.pop('rule_description') and False").


Definition over_1000 (id : string) : rule_doc :=
  RuleDoc id (PyStr "Amount must exceed 1000") (PyStr "{transaction[amount]} > 1000").

Definition unknown_field (id : string) : rule_doc :=
  RuleDoc id (PyStr "foo must exceed 10") (PyStr "{transaction[foo]} > 10").

Definition division_by_zero (id : string) : rule_doc :=
  RuleDoc id (PyStr "never evaluates") (PyStr "1/0").

Definition empty_world : world := World [] [] [].

Definition with_rules (rules : list rule_doc) : world := World [] rules [].

Definition quiet (id : string) : env :=
  Env id None (fun _ => Returned (PyStr "report text")).

Definition three_rules : world :=
  with_rules [over_1000 "r1"; unknown_field "r2"; over_1000 "r3"].

Definition failing_rules : world :=
  with_rules [unknown_field "r1"; division_by_zero "r2"].

(** A chat model that answers with the sentence of the sentinel. *)
Definition echo : env :=
  Env "u1" None (fun _ => Returned (PyStr "No non-compliant transactions found.")).

Definition laptop (amount : pyval) : pyval :=
  audit_payload (PyStr "2024-01-01") (PyStr "laptop") amount.

Definition laptop_transaction (id : string) (f : spec_float) : dict :=
  new_transaction id (PyStr "2024-01-01") (PyStr "laptop") f.

(** A stored transaction without issues. *)
Definition compliant_transaction : dict :=
  stored_transaction [] (laptop_transaction "t2" f1500).

(** A stored transaction that violates [over_1000]. *)
Definition violating_transaction : dict :=
  stored_transaction [PyStr "Amount must exceed 1000"] (laptop_transaction "t1" f500).

(** ** Start of the process (lines 14-21)

    The five settings are read with [os.getenv], which gives [None] for a
    variable that is not set; [not v] holds for [None] and for the empty
    string. *)

Definition required_variables : list string :=
  ["AZURE_OPENAI_ENDPOINT"; "AZURE_OPENAI_KEY"; "AZURE_OPENAI_DEPLOYMENT_NAME";
   "COSMOS_DB_ENDPOINT"; "COSMOS_DB_KEY"].

(** [not v] for the result of [os.getenv] *)
Definition py_not_env (v : option string) : bool :=
  match v with
  | None => true
  | Some s => String.eqb s ""
  end.

Definition check_environment (getenv : string -> option string) : outcome unit :=
  let azure_endpoint := getenv "AZURE_OPENAI_ENDPOINT" in
  let api_key := getenv "AZURE_OPENAI_KEY" in
  let deployment_name := getenv "AZURE_OPENAI_DEPLOYMENT_NAME" in
  let cosmos_db_endpoint := getenv "COSMOS_DB_ENDPOINT" in
  let cosmos_db_key := getenv "COSMOS_DB_KEY" in
  if py_not_env azure_endpoint || py_not_env api_key || py_not_env deployment_name
     || py_not_env cosmos_db_endpoint || py_not_env cosmos_db_key
  then Raised (Exn ValueError
                 "Environment variables for Azure OpenAI and Cosmos DB must be set.")
  else Returned tt.

(** ** More vocabulary *)

(** The descriptions logged by "Rule violation", oldest first. *)
Fixpoint violations (l : list log_record) : list pyval :=
  match l with
  | [] => []
  | LogInfo (RuleViolation d) :: l' => d :: violations l'
  | _ :: l' => violations l'
  end.

(** The first of the keys read at lines 79-81 that the payload lacks. *)
Definition first_missing (d : dict) : option string :=
  match d !! "date" with
  | None => Some "date"
  | Some _ =>
      match d !! "description" with
      | None => Some "description"
      | Some _ =>
          match d !! "amount" with
          | None => Some "amount"
          | Some _ => None
          end
      end
  end.

(** [not t['is_compliant']] for a stored document that has the key. *)
Definition flagged (t : dict) : bool :=
  match t !! "is_compliant" with
  | Some v => negb (py_bool v)
  | None => false
  end.

(** A stored document with the six fields [audit_transaction] writes. *)
Definition complete (t : dict) : Prop :=
  Forall (fun key => is_Some (t !! key))
         ["id"; "date"; "description"; "amount"; "compliance_issues"; "is_compliant"].

(** What [generate_report] answers once the chat model has been asked. *)
Definition chat_answer (E : env) (lines : list string) : outcome response :=
  match perform_query_chat E (detailed_prompt lines) with
  | Returned message => Returned (Response (jsonify [("report", message)]) 200)
  | Raised e => Raised e
  end.

(** The request that adds one rule: the uuid drawn for it, and its two
    fields; the store takes the write. *)
Definition rule_request : Type := string * pyval * pyval.

Definition requested_rule (r : rule_request) : rule_doc :=
  RuleDoc r.1.1 r.1.2 r.2.

Definition send_rule (r : rule_request) (w : world) : world :=
  snd (run (update_compliance (Env r.1.1 None (fun _ => Returned PyNone))
              (rule_payload r.1.2 r.2)) w).

(** Several [POST /update_compliance] in a row. *)
Fixpoint send_rules (rs : list rule_request) (w : world) : world :=
  match rs with
  | [] => w
  | r :: rs' => send_rules rs' (send_rule r w)
  end.


(** A rule whose check is the JSON number 5. *)
Definition numeric_check (id : string) : rule_doc :=
  RuleDoc id (PyStr "check is a number") (PyInt 5).

Definition service_unavailable : exn :=
  Exn (OtherException "CosmosHttpResponseError") "Service Unavailable".

(** A store that refuses the write. *)
Definition refusing (id : string) : env :=
  Env id (Some service_unavailable) (fun _ => Returned (PyStr "report text")).

(** A chat model that fails. *)
Definition failing_chat : env :=
  Env "u1" None (fun _ => Raised (Exn (OtherException "APIConnectionError") "Connection error.")).

(** A stored document without the verdict. *)
Definition unaudited_transaction : dict :=
  <["id" := PyStr "t9"]> (∅ : dict).

(** An environment in which the five settings are there. *)
Definition full_environment (name : string) : option string :=
  if decide (name ∈ required_variables) then Some "value" else None.

(** * Properties *)

(** ** The monad and the containers *)

Lemma keeps_ret {A} (a : A) : keeps_containers (ret a).
Proof. by intros w. Qed.

Lemma keeps_raise {A} e : keeps_containers (@raise A e).
Proof. by intros w. Qed.

Lemma keeps_lift {A} (o : outcome A) : keeps_containers (lift o).
Proof. destruct o; [apply keeps_ret | apply keeps_raise]. Qed.

Lemma keeps_logging_info m : keeps_containers (logging_info m).
Proof. by intros w. Qed.

Lemma keeps_logging_error m : keeps_containers (logging_error m).
Proof. by intros w. Qed.

Lemma keeps_read_rules : keeps_containers rule_container_read_all_items.
Proof. by intros w. Qed.

Lemma keeps_read_transactions : keeps_containers transaction_container_read_all_items.
Proof. by intros w. Qed.



Lemma bind_lift_returned {A B} (a : A) (k : A -> M B) :
  bind (lift (Returned a)) k = k a.
Proof. reflexivity. Qed.

Lemma bind_lift_raised {A B} (e : exn) (k : A -> M B) :
  bind (lift (Raised e)) k = raise e.
Proof. reflexivity. Qed.

Create HintDb keeps.
#[export] Hint Resolve keeps_ret keeps_raise keeps_lift keeps_logging_info
  keeps_logging_error keeps_read_rules keeps_read_transactions : keeps.



Lemma elem_of_upsert {A} key (x : A) (l : list A) : x ∈ upsert key x l.
Proof.
  induction l as [|y l IH]; simpl.
  - apply list_elem_of_here.
  - destruct (decide (key y = key x)); [apply list_elem_of_here|by apply list_elem_of_further].
Qed.

(** A document with a new id goes to the end of the container. *)
Lemma upsert_fresh {A} key (x : A) (l : list A) :
  Forall (fun y => key y <> key x) l -> upsert key x l = l ++ [x].
Proof.
  induction 1 as [|y l Hy _ IH]; simpl; [done|].
  rewrite decide_False by done. by rewrite IH.
Qed.



(** ** The rule loop *)

Lemma checked_app l1 l2 : checked (l1 ++ l2) = checked l1 ++ checked l2.
Proof.
  induction l1 as [|[[]|] l1 IH]; simpl; try done.
  by rewrite IH.
Qed.

Lemma violations_app l1 l2 : violations (l1 ++ l2) = violations l1 ++ violations l2.
Proof.
  induction l1 as [|[[]|] l1 IH]; simpl; try done.
  by rewrite IH.
Qed.

Lemma logged_logged w l1 l2 : logged (logged w l1) l2 = logged w (l1 ++ l2).
Proof. unfold logged; simpl. by rewrite <- app_assoc. Qed.

Lemma logged_nil w : logged w [] = w.
Proof. destruct w; unfold logged; simpl. by rewrite app_nil_r. Qed.

(** The rule at position [length pre] of [pre ++ rule :: post]. *)
Lemma lookup_rule pre rule post :
  map rule_dict (pre ++ rule :: post) !! length pre = Some (rule_dict rule).
Proof.
  rewrite map_app. simpl. apply list_lookup_middle. by rewrite length_map.
Qed.

Lemma lookup_no_rule rules : map rule_dict rules !! length rules = None.
Proof. apply lookup_ge_None_2. by rewrite length_map. Qed.

Section Rules.
Context `{RT : PyRuntime}.

(** The loop stops where the list ends, whatever the bound. *)
Lemma rule_loop_end fuel i fr w :
  fr_rules fr !! i = None -> rule_loop fuel i fr w = Some (Returned fr, w).
Proof. intros H. destruct fuel; simpl; by rewrite H. Qed.

Lemma rule_loop_turn fuel i fr rule w :
  fr_rules fr !! i = Some rule ->
  rule_loop (S fuel) i fr w =
    match rule_step fr rule w with
    | Some (Returned fr', w') => rule_loop fuel (S i) fr' w'
    | Some (Raised e, w') => Some (Raised e, w')
    | None => None
    end.
Proof. intros H. simpl. rewrite H. reflexivity. Qed.

(** The bound on the turns is only a bound: a result reached within it is
    reached within every larger one. *)
Lemma rule_loop_more_fuel fuel fuel' i fr w r :
  rule_loop fuel i fr w = Some r -> fuel <= fuel' -> rule_loop fuel' i fr w = Some r.
Proof.
  revert fuel' i fr w. induction fuel as [|fuel IH]; intros fuel' i fr w Hr Hle.
  - simpl in Hr. destruct (fr_rules fr !! i) as [rule|] eqn:Hi; [done|].
    by rewrite rule_loop_end.
  - destruct fuel' as [|fuel']; [lia|]. simpl in Hr |- *.
    destruct (fr_rules fr !! i) as [rule|]; [|done].
    unfold pbind in Hr |- *.
    destruct (rule_step fr rule w) as [[[fr'|e] w1]|]; [|done|done].
    apply IH; [done|lia].
Qed.

(** One turn on a rule of the container. *)
Lemma rule_step_unfold rules rule transaction issues w :
  rule_step (rule_frame rules transaction issues) (rule_dict rule) w =
    match evaluate_rule (rule_scope rules rule transaction issues) (checking rule w) with
    | None => None
    | Some (Raised e, sc, w') => rule_error sc e w'
    | Some (Returned v, sc, w') =>
        if negb (py_bool v) then
          match getitem (PyDict (sc_rule sc)) "rule_description" with
          | Raised e => rule_error sc e w'
          | Returned description' =>
              Some (Returned (Frame (sc_transaction sc) (sc_rules sc)
                                    (sc_compliance_issues sc ++ [description'])),
                    logged w' [LogInfo (RuleViolation description')])
          end
        else Some (Returned (frame_of sc), w')
    end.
Proof. reflexivity. Qed.

(** A turn on a rule text that writes nothing and raises nothing but
    [Exception]s. *)
Lemma rule_step_effect_free rules rule transaction issues w :
  effect_free rules rule ->
  raises_only_Exception rules rule ->
  rule_step (rule_frame rules transaction issues) (rule_dict rule) w =
    Some (Returned (rule_frame rules transaction
                      (step_issues rules rule transaction issues w)),
          logged w (step_log rules rule transaction issues w)).
Proof.
  intros Hf Hx. rewrite rule_step_unfold. unfold step_issues, step_log, violated.
  destruct (Hf transaction issues (checking rule w)) as [o Ho].
  rewrite Ho. unfold rule_error.
  change (getitem (PyDict (sc_rule (rule_scope rules rule transaction issues)))
            "rule_description") with (Returned (rule_description rule)).
  destruct o as [v|e].
  - destruct (py_bool v); cbn [negb].
    + reflexivity.
    + unfold checking. by rewrite logged_logged.
  - rewrite (Hx _ _ _ _ _ _ Ho).
    unfold pbind, total, logging_error, checking, logged; simpl.
    by rewrite <- app_assoc.
Qed.

(** With rule texts that write nothing, the loop comes to the end of the
    list: it appends the descriptions of the violated rules, and hands the
    transaction and the list back as it got them. *)
Lemma rule_loop_effect_free rules pre rest transaction issues w fuel :
  rules = pre ++ rest ->
  Forall (effect_free rules) rest ->
  Forall (raises_only_Exception rules) rest ->
  length rest <= fuel ->
  rule_loop fuel (length pre) (rule_frame rules transaction issues) w =
    Some (Returned (rule_frame rules transaction
                      (issues ++ map rule_description
                                   (violated_rules rules rest transaction issues w))),
          logged w (loop_log rules rest transaction issues w)).
Proof.
  intros Hrules Hf Hx. revert pre issues w fuel Hrules.
  induction rest as [|rule rest IH]; intros pre issues w fuel Hrules Hfuel.
  - rewrite rule_loop_end.
    + simpl. by rewrite app_nil_r, logged_nil.
    + simpl. rewrite Hrules, app_nil_r. apply lookup_no_rule.
  - apply Forall_cons in Hf as [Hf1 Hf]. apply Forall_cons in Hx as [Hx1 Hx].
    destruct fuel as [|fuel]; [simpl in Hfuel; lia|].
    rewrite (rule_loop_turn _ _ _ (rule_dict rule)).
    2:{ simpl. rewrite Hrules. apply lookup_rule. }
    rewrite (rule_step_effect_free _ _ _ _ _ Hf1 Hx1).
    replace (S (length pre)) with (length (pre ++ [rule]))
      by (rewrite length_app; simpl; lia).
    rewrite (IH Hf Hx (pre ++ [rule])).
    2:{ by rewrite <- app_assoc. }
    2:{ simpl in Hfuel. lia. }
    simpl. rewrite logged_logged. unfold step_issues.
    destruct (violated rules rule transaction issues (checking rule w)); simpl.
    + by rewrite <- app_assoc.
    + done.
Qed.


Lemma checked_step_log rules rule transaction issues w :
  checked (step_log rules rule transaction issues w) = [rule_description rule].
Proof.
  unfold step_log.
  destruct (evaluate_rule _ _) as [[[[v|e] sc] w']|]; simpl; try done.
  by destruct (py_bool v).
Qed.

Lemma violations_step_log rules rule transaction issues w :
  violations (step_log rules rule transaction issues w) =
    if violated rules rule transaction issues (checking rule w)
    then [rule_description rule] else [].
Proof.
  unfold step_log, violated.
  destruct (evaluate_rule _ _) as [[[[v|e] sc] w']|]; simpl; try done.
  by destruct (py_bool v).
Qed.

(** "Checking rule" is logged once for every rule, in order. *)
Lemma checked_loop_log rules rest transaction issues w :
  checked (loop_log rules rest transaction issues w) = map rule_description rest.
Proof.
  revert issues w.
  induction rest as [|rule rest IH]; intros issues w; cbn [loop_log map]; [done|].
  by rewrite checked_app, checked_step_log, IH.
Qed.

(** "Rule violation" is logged once for every violated rule, in order. *)
Lemma violations_loop_log rules rest transaction issues w :
  violations (loop_log rules rest transaction issues w)
  = map rule_description (violated_rules rules rest transaction issues w).
Proof.
  revert issues w.
  induction rest as [|rule rest IH];
    intros issues w; cbn [loop_log violated_rules map]; [done|].
  rewrite violations_app, violations_step_log, IH.
  by destruct (violated rules rule transaction issues (checking rule w)).
Qed.

Lemma violated_rules_sublist rules rest transaction issues w :
  sublist (violated_rules rules rest transaction issues w) rest.
Proof.
  revert issues w. induction rest as [|rule rest IH]; intros issues w; simpl.
  - constructor.
  - destruct (violated rules rule transaction issues (checking rule w)).
    + by apply sublist_skip.
    + by apply sublist_cons.
Qed.

Lemma violated_rules_filter rules rest (transaction : dict) issues w verdict :
  (forall rule issues' w', violated rules rule transaction issues' w' = verdict rule) ->
  violated_rules rules rest transaction issues w
    = filter (fun rule => verdict rule = true) rest.
Proof.
  intros Hind. revert issues w.
  induction rest as [|rule rest IH]; intros issues w; simpl; [done|].
  rewrite filter_cons, Hind.
  destruct (verdict rule) eqn:Hv.
  - rewrite decide_True by done. by rewrite IH.
  - rewrite decide_False by done. apply IH.
Qed.

Lemma violated_rules_app rules pre rest transaction issues w :
  violated_rules rules (pre ++ rest) transaction issues w =
    violated_rules rules pre transaction issues w ++
    violated_rules rules rest transaction
      (issues_after rules pre transaction issues w)
      (logged w (loop_log rules pre transaction issues w)).
Proof.
  unfold issues_after. revert issues w.
  induction pre as [|rule pre IH]; intros issues w; cbn [violated_rules loop_log app map].
  - by rewrite app_nil_r, logged_nil.
  - rewrite !IH, !logged_logged. unfold step_issues.
    destruct (violated rules rule transaction issues (checking rule w)); simpl.
    + by rewrite <- app_assoc.
    + done.
Qed.

(** The rules kept from [pre ++ rule :: post]: those kept from [pre], then
    [rule] if its text evaluates to a false value at its turn, then some of
    [post]. *)
Lemma violated_rules_middle rules pre rule post (transaction : dict) w :
  exists later,
    sublist later post /\
    violated_rules rules (pre ++ rule :: post) transaction [] w =
      violated_rules rules pre transaction [] w ++
      (if violated rules rule transaction
            (map rule_description (violated_rules rules pre transaction [] w))
            (checking rule (logged w (loop_log rules pre transaction [] w)))
       then [rule] else []) ++ later.
Proof.
  rewrite violated_rules_app. unfold issues_after. cbn [violated_rules app].
  eexists. split; [apply violated_rules_sublist|].
  by destruct (violated rules rule transaction _ _).
Qed.

(** Every rule the loop keeps has evaluated to a false value. *)
Lemma violated_rules_evaluated rules rest transaction issues w rule :
  rule ∈ violated_rules rules rest transaction issues w ->
  exists issues' w' v sc w'',
    evaluate_rule (rule_scope rules rule transaction issues') w' = Some (Returned v, sc, w'') /\
    py_bool v = false.
Proof.
  revert issues w. induction rest as [|r rest IH]; intros issues w; simpl.
  - intros H. by apply elem_of_nil in H.
  - destruct (violated rules r transaction issues (checking r w)) eqn:Hv.
    + intros [Heq|H]%elem_of_cons; [subst r|by eapply IH].
      unfold violated in Hv.
      destruct (evaluate_rule _ _) as [[[[v|e] sc] w'']|] eqn:He; try done.
      exists issues, (checking rule w), v, sc, w''. split; [done|].
      by destruct (py_bool v).
    + by apply IH.
Qed.

End Rules.

(** ** check_compliance *)

Section Check.
Context `{RT : PyRuntime}.

Lemma check_compliance_unfold fuel (transaction : dict) w :
  run_partial (check_compliance fuel transaction) w =
    match convert_amount transaction w with
    | (Returned (Some transaction'), w0) =>
        match rule_loop fuel 0 (rule_frame (rule_container w0) transaction' []) w0 with
        | Some (Returned fr, w') =>
            Some (Returned (fr_compliance_issues fr, fr_transaction fr), w')
        | Some (Raised e, w') => Some (Raised e, w')
        | None => None
        end
    | (Returned None, w0) => Some (Returned ([invalid_amount_issue], transaction), w0)
    | (Raised e, w0) => Some (Raised e, w0)
    end.
Proof.
  unfold run_partial.
  change (check_compliance fuel transaction)
    with (let+ converted := total (convert_amount transaction) in
          match converted with
          | None => total (ret ([invalid_amount_issue], transaction))
          | Some transaction =>
              let+ rules := total rule_container_read_all_items in
              let+ fr := rule_loop fuel 0 (Frame transaction rules []) in
              total (ret (fr_compliance_issues fr, fr_transaction fr))
          end).
  unfold pbind at 1, total at 1.
  destruct (convert_amount transaction w) as [[[t|]|e] w0]; reflexivity.
Qed.

(** Lines 105-111: with an amount that [float] accepts, the function
    stores the float back and walks the rules of the container. *)
Lemma check_compliance_converted fuel (transaction : dict) a f w :
  transaction !! "amount" = Some a ->
  py_float a = Returned f ->
  run_partial (check_compliance fuel transaction) w =
    match rule_loop fuel 0
            (rule_frame (rule_container w) (<["amount" := PyFloat f]> transaction) []) w with
    | Some (Returned fr, w') =>
        Some (Returned (fr_compliance_issues fr, fr_transaction fr), w')
    | Some (Raised e, w') => Some (Raised e, w')
    | None => None
    end.
Proof.
  intros Ha Hf. rewrite check_compliance_unfold.
  unfold convert_amount, try_except, getitem.
  by rewrite Ha, bind_lift_returned, Hf, bind_lift_returned.
Qed.

Lemma check_compliance_more_fuel fuel fuel' transaction w r :
  run_partial (check_compliance fuel transaction) w = Some r ->
  fuel <= fuel' ->
  run_partial (check_compliance fuel' transaction) w = Some r.
Proof.
  intros Hr Hle. revert Hr. rewrite !check_compliance_unfold.
  destruct (convert_amount transaction w) as [[[t|]|e] w0]; try done.
  destruct (rule_loop fuel 0 _ w0) as [r0|] eqn:Hl; [|done].
  by rewrite (rule_loop_more_fuel _ _ _ _ _ _ Hl Hle).
Qed.


(** With rule texts that write nothing, and turns enough for the rules of
    the container, the function returns the descriptions of the violated
    rules. *)
Lemma check_compliance_effect_free fuel (transaction : dict) a f w :
  transaction !! "amount" = Some a ->
  py_float a = Returned f ->
  Forall (effect_free (rule_container w)) (rule_container w) ->
  Forall (raises_only_Exception (rule_container w)) (rule_container w) ->
  length (rule_container w) <= fuel ->
  run_partial (check_compliance fuel transaction) w =
    Some (Returned (map rule_description
                      (violated_rules (rule_container w) (rule_container w)
                         (<["amount" := PyFloat f]> transaction) [] w),
                    <["amount" := PyFloat f]> transaction),
          logged w (loop_log (rule_container w) (rule_container w)
                      (<["amount" := PyFloat f]> transaction) [] w)).
Proof.
  intros Ha Hf Hfree Hexc Hfuel.
  rewrite (check_compliance_converted _ _ _ _ _ Ha Hf).
  by rewrite (rule_loop_effect_free (rule_container w) [] (rule_container w)).
Qed.

(** C4 (amended). With rule texts that write nothing, a rule's description
    is appended to compliance_issues exactly when its text evaluates to a
    false value at its turn: what [check_compliance] returns is the issues
    of the rules before it, then its own description if and only if the
    evaluation gave a false value, then issues of rules after it. *)
Theorem violation_iff_evaluates_false fuel pre rule post (transaction : dict) a f w :
  rule_container w = pre ++ rule :: post ->
  transaction !! "amount" = Some a ->
  py_float a = Returned f ->
  Forall (effect_free (rule_container w)) (rule_container w) ->
  Forall (raises_only_Exception (rule_container w)) (rule_container w) ->
  length (rule_container w) <= fuel ->
  let rules := rule_container w in
  let transaction' := <["amount" := PyFloat f]> transaction in
  let before := map rule_description (violated_rules rules pre transaction' [] w) in
  let w1 := checking rule (logged w (loop_log rules pre transaction' [] w)) in
  exists after,
    (exists kept, sublist kept post /\ after = map rule_description kept) /\
    fst <$> run_partial (check_compliance fuel transaction) w
      = Some (Returned
                (before ++
                 (if violated rules rule transaction' before w1
                  then [rule_description rule] else []) ++ after,
                 transaction')) /\
    (violated rules rule transaction' before w1 = true
     <-> exists v sc w2,
           evaluate_rule (rule_scope rules rule transaction' before) w1
             = Some (Returned v, sc, w2) /\
           py_bool v = false).
Proof.
  intros Hrules Ha Hf Hfree Hexc Hfuel. cbv zeta.
  rewrite (check_compliance_effect_free _ _ _ _ _ Ha Hf Hfree Hexc Hfuel).
  set (rules := rule_container w) in *.
  set (tx := <["amount" := PyFloat f]> transaction).
  rewrite (f_equal (fun rest => violated_rules rules rest tx [] w) Hrules).
  destruct (violated_rules_middle rules pre rule post tx w) as (later & Hlater & ->).
  exists (map rule_description later).
  split; [by exists later|]. split.
  - cbn. rewrite !map_app. by destruct (violated rules rule tx _ _).
  - unfold violated.
    destruct (evaluate_rule _ _) as [[[[v|e] sc] w2]|]; split; try done.
    + intros Hv. exists v, sc, w2. split; [done|]. by destruct (py_bool v).
    + intros (v' & sc' & w2' & [= -> _ _] & ->). done.
    + intros (v' & sc' & w2' & [=] & _).
    + intros (v' & sc' & w2' & [=] & _).
Qed.


(** C7 (amended). With rule texts that write nothing, compliance_issues
    lists the descriptions of the violated rules in the order in which the
    rule container yields the rules: it is the image of a subsequence of
    the rule list, and the plain filter of the rule list when the verdicts
    look at neither the issue list nor the log. *)
Theorem compliance_issues_follow_rule_order fuel (transaction : dict) a f w :
  transaction !! "amount" = Some a ->
  py_float a = Returned f ->
  Forall (effect_free (rule_container w)) (rule_container w) ->
  Forall (raises_only_Exception (rule_container w)) (rule_container w) ->
  length (rule_container w) <= fuel ->
  let rules := rule_container w in
  let transaction' := <["amount" := PyFloat f]> transaction in
  let kept := violated_rules rules rules transaction' [] w in
  fst <$> run_partial (check_compliance fuel transaction) w
    = Some (Returned (map rule_description kept, transaction'))
  /\ sublist kept rules
  /\ (forall verdict,
        (forall rule issues w', violated rules rule transaction' issues w' = verdict rule) ->
        kept = filter (fun rule => verdict rule = true) rules).
Proof.
  intros Ha Hf Hfree Hexc Hfuel. cbv zeta.
  split; [|split].
  - by rewrite (check_compliance_effect_free _ _ _ _ _ Ha Hf Hfree Hexc Hfuel).
  - apply violated_rules_sublist.
  - intros verdict Hind. by apply violated_rules_filter.
Qed.

(** C9 (amended). With rule texts that write nothing, the only write
    [check_compliance] makes to the transaction is its own: line 106 stores
    [float(amount)] back.  A transaction whose amount is a float already, as
    on every call from [audit_transaction], comes back as it went in. *)
Theorem pure_rule_texts_keep_the_transaction fuel (transaction : dict) a f w :
  transaction !! "amount" = Some a ->
  py_float a = Returned f ->
  Forall (effect_free (rule_container w)) (rule_container w) ->
  Forall (raises_only_Exception (rule_container w)) (rule_container w) ->
  length (rule_container w) <= fuel ->
  (exists issues l,
     run_partial (check_compliance fuel transaction) w
       = Some (Returned (issues, <["amount" := PyFloat f]> transaction), logged w l))
  /\ (a = PyFloat f ->
      exists issues l,
        run_partial (check_compliance fuel transaction) w
          = Some (Returned (issues, transaction), logged w l)).
Proof.
  intros Ha Hf Hfree Hexc Hfuel.
  rewrite (check_compliance_effect_free _ _ _ _ _ Ha Hf Hfree Hexc Hfuel).
  split; [by eexists _, _|].
  intros ->. rewrite (insert_id transaction "amount" (PyFloat f) Ha). by eexists _, _.
Qed.

End Check.

(** ** What a rule text can reach *)

Section Containers.
Context `{RT : PyRuntime}.






End Containers.

(** ** audit_transaction *)

Section Audit.
Context `{RT : PyRuntime}.

Lemma getitem_payload date description amount :
  getitem (audit_payload date description amount) "date" = Returned date /\
  getitem (audit_payload date description amount) "description" = Returned description /\
  getitem (audit_payload date description amount) "amount" = Returned amount.
Proof. unfold getitem, audit_payload. by simplify_map_eq. Qed.

Lemma new_transaction_amount id date description f :
  <["amount" := PyFloat f]> (new_transaction id date description f)
    = new_transaction id date description f.
Proof. apply insert_id. unfold new_transaction. by simplify_map_eq. Qed.

Lemma doc_id_stored issues (transaction : dict) :
  doc_id (stored_transaction issues transaction) = doc_id transaction.
Proof. unfold doc_id, stored_transaction. by simplify_map_eq. Qed.


Lemma submit_refused E issues transaction w e :
  upsert_item_fault E = Some e ->
  submit_transaction E issues transaction w =
    if is_Exception e
    then (Returned (Response (jsonify [("error", PyStr (exn_str e))]) 500),
          logged w [LogError (ErrorSubmittingData e)])
    else (Raised e, w).
Proof.
  intros He. unfold submit_transaction, try_except, bind at 1, transaction_container_upsert_item.
  rewrite He. by destruct (is_Exception e).
Qed.


Lemma submit_accepted E issues (transaction : dict) w i :
  upsert_item_fault E = None ->
  doc_id transaction = Some i ->
  submit_transaction E issues transaction w =
    (Returned (audit_response (PyStr i) issues),
     World (upsert doc_id (stored_transaction issues transaction) (transaction_container w))
           (rule_container w) (log w)).
Proof.
  intros He Hid.
  assert (Hi : getitem (PyDict (stored_transaction issues transaction)) "id"
               = Returned (PyStr i)).
  { unfold getitem, stored_transaction. simplify_map_eq. unfold doc_id in Hid.
    destruct (transaction !! "id") as [[]|]; by simplify_eq. }
  assert (Hc : getitem (PyDict (stored_transaction issues transaction)) "is_compliant"
               = Returned (PyBool (Nat.eqb (length issues) 0))).
  { unfold getitem, stored_transaction. by simplify_map_eq. }
  unfold submit_transaction, try_except, bind at 1, transaction_container_upsert_item.
  rewrite He, doc_id_stored, Hid, Hi, Hc. reflexivity.
Qed.


Lemma audit_transaction_unfold fuel E data w :
  run_partial (audit_transaction fuel E data) w =
    match build_transaction E data w with
    | (Returned (inl transaction), w0) =>
        match check_compliance fuel transaction w0 with
        | Some (Returned (issues, transaction'), w1) =>
            Some (submit_transaction E issues transaction' w1)
        | Some (Raised e, w1) => Some (Raised e, w1)
        | None => None
        end
    | (Returned (inr resp), w0) => Some (Returned resp, w0)
    | (Raised e, w0) => Some (Raised e, w0)
    end.
Proof.
  unfold run_partial.
  change (audit_transaction fuel E data)
    with (let+ built := total (build_transaction E data) in
          match built with
          | inr resp => total (ret resp)
          | inl transaction =>
              let+ (issues, transaction') := check_compliance fuel transaction in
              total (submit_transaction E issues transaction')
          end).
  unfold pbind at 1, total at 1.
  destruct (build_transaction E data w) as [[[transaction|resp]|e] w0]; try reflexivity.
  unfold pbind at 1.
  destruct (check_compliance fuel transaction w0) as [[[[issues transaction']|e] w1]|];
    reflexivity.
Qed.

Lemma audit_transaction_more_fuel fuel fuel' E data w r :
  run_partial (audit_transaction fuel E data) w = Some r ->
  fuel <= fuel' ->
  run_partial (audit_transaction fuel' E data) w = Some r.
Proof.
  intros Hr Hle. revert Hr. rewrite !audit_transaction_unfold.
  destruct (build_transaction E data w) as [[[transaction|resp]|e] w0]; try done.
  destruct (check_compliance fuel transaction w0) as [r0|] eqn:Hc; [|done].
  pose proof (check_compliance_more_fuel _ _ _ _ _ Hc Hle) as Hc'.
  unfold run_partial in Hc'. by rewrite Hc'.
Qed.


(** Lines 76-90 with a payload whose amount [float] accepts. *)
Lemma audit_transaction_built fuel E date description a f w :
  py_float a = Returned f ->
  run_partial (audit_transaction fuel E (audit_payload date description a)) w =
    match run_partial
            (check_compliance fuel (new_transaction (uuid4 E) date description f)) w with
    | Some (Returned (issues, transaction), w1) =>
        Some (submit_transaction E issues transaction w1)
    | Some (Raised e, w1) => Some (Raised e, w1)
    | None => None
    end.
Proof.
  intros Hf. destruct (getitem_payload date description a) as (Hd & Hde & Ha).
  rewrite audit_transaction_unfold. unfold build_transaction.
  rewrite Hd, Hde, Ha, !bind_lift_returned. cbv beta.
  rewrite Hf, bind_lift_returned. reflexivity.
Qed.



(** With rule texts that write nothing and raise nothing but [Exception]s,
    and a store that takes the write, the audit answers 201 with the
    descriptions of the violated rules. *)
Lemma audit_transaction_effect_free fuel E date description a f w :
  py_float a = Returned f ->
  upsert_item_fault E = None ->
  Forall (effect_free (rule_container w)) (rule_container w) ->
  Forall (raises_only_Exception (rule_container w)) (rule_container w) ->
  length (rule_container w) <= fuel ->
  run_partial (audit_transaction fuel E (audit_payload date description a)) w =
    Some (Returned
            (audit_response (PyStr (uuid4 E))
               (map rule_description
                  (violated_rules (rule_container w) (rule_container w)
                     (new_transaction (uuid4 E) date description f) [] w))),
          World
            (upsert doc_id
               (stored_transaction
                  (map rule_description
                     (violated_rules (rule_container w) (rule_container w)
                        (new_transaction (uuid4 E) date description f) [] w))
                  (new_transaction (uuid4 E) date description f))
               (transaction_container w))
            (rule_container w)
            (log w ++ loop_log (rule_container w) (rule_container w)
                        (new_transaction (uuid4 E) date description f) [] w)).
Proof.
  intros Hf He Hfree Hexc Hfuel.
  rewrite (audit_transaction_built _ _ _ _ _ _ _ Hf).
  rewrite (check_compliance_effect_free _ _ (PyFloat f) f);
    [|by unfold new_transaction; simplify_map_eq|done|done|done|done].
  rewrite new_transaction_amount.
  rewrite (submit_accepted _ _ _ _ (uuid4 E) He); [done|].
  unfold doc_id, new_transaction. by simplify_map_eq.
Qed.

(** An amount string that [float] rejects: the handler logs, answers 400
    and touches nothing else. *)
Lemma audit_transaction_rejects_string fuel E date description s w :
  float_of_str s = None ->
  run_partial (audit_transaction fuel E (audit_payload date description (PyStr s))) w =
    Some (Returned (Response (jsonify [("error", PyStr "Invalid amount format")]) 400),
          logged w [LogError (ErrorConvertingAmount
                                (Exn ValueError ("could not convert string to float: "
                                                 +:+ py_repr (PyStr s))))]).
Proof.
  intros Hs. destruct (getitem_payload date description (PyStr s)) as (Hd & Hde & Ha).
  rewrite audit_transaction_unfold. unfold build_transaction.
  rewrite Hd, Hde, Ha, !bind_lift_returned. cbv beta.
  unfold py_float. rewrite Hs. reflexivity.
Qed.


(** C3 (where the handler falls short of it). A payload whose amount is
    JSON null: [float(None)] raises TypeError, which [except ValueError]
    does not catch.  The handler answers no 400: the exception leaves it,
    with nothing logged, no rule looked at and nothing written. *)
Theorem null_amount_is_not_rejected fuel E date description w :
  run_partial (audit_transaction fuel E (audit_payload date description PyNone)) w =
    Some (Raised (Exn TypeError
                    "float() argument must be a string or a real number, not 'NoneType'"), w).
Proof.
  destruct (getitem_payload date description PyNone) as (Hd & Hde & Ha).
  rewrite audit_transaction_unfold. unfold build_transaction.
  rewrite Hd, Hde, Ha, !bind_lift_returned. reflexivity.
Qed.

(** C10 (amended). With rule texts that write nothing, the answer of an
    audit lists the descriptions of the rules whose text evaluated to a
    false value and nothing else: a rule whose evaluation raises at its
    turn has no entry in compliance_issues, and the answer has no field that
    tells of it.  When every rule of the container raises, the answer is the one an
    empty container gives, with is_compliant true. *)
Theorem failed_rules_are_dropped_silently fuel E date description a f w :
  py_float a = Returned f ->
  upsert_item_fault E = None ->
  Forall (effect_free (rule_container w)) (rule_container w) ->
  Forall (raises_only_Exception (rule_container w)) (rule_container w) ->
  length (rule_container w) <= fuel ->
  let rules := rule_container w in
  let transaction := new_transaction (uuid4 E) date description f in
  let kept := violated_rules rules rules transaction [] w in
  let raises rule :=
    forall issues w0,
      exists e sc w1,
        evaluate_rule (rule_scope rules rule transaction issues) w0 = Some (Raised e, sc, w1) in
  fst <$> run_partial (audit_transaction fuel E (audit_payload date description a)) w
    = Some (Returned (Response (jsonify [("transaction_id", PyStr (uuid4 E));
                                         ("compliance_issues",
                                          PyList (map rule_description kept));
                                         ("is_compliant",
                                          PyBool (Nat.eqb (length kept) 0))]) 201))
  /\ sublist kept rules
  /\ (forall rule,
        rule ∈ kept ->
        exists issues w0 v sc w1,
          evaluate_rule (rule_scope rules rule transaction issues) w0
            = Some (Returned v, sc, w1) /\
          py_bool v = false)
  /\ (forall pre rule post e sc w1,
        rules = pre ++ rule :: post ->
        evaluate_rule
          (rule_scope rules rule transaction
             (map rule_description (violated_rules rules pre transaction [] w)))
          (checking rule (logged w (loop_log rules pre transaction [] w)))
          = Some (Raised e, sc, w1) ->
        exists later,
          sublist later post /\
          kept = violated_rules rules pre transaction [] w ++ later)
  /\ (forall rule, raises rule -> rule ∉ kept)
  /\ (Forall raises rules -> kept = []).
Proof.
  intros Hf He Hfree Hexc Hfuel. cbv zeta.
  assert (Hkept : forall rule,
            rule ∈ violated_rules (rule_container w) (rule_container w)
                     (new_transaction (uuid4 E) date description f) [] w ->
            exists issues w0 v sc w1,
              evaluate_rule (rule_scope (rule_container w) rule
                               (new_transaction (uuid4 E) date description f) issues) w0
                = Some (Returned v, sc, w1) /\
              py_bool v = false)
    by (intros rule; apply violated_rules_evaluated).
  assert (Hnot : forall rule,
            (forall issues w0,
               exists e sc w1,
                 evaluate_rule (rule_scope (rule_container w) rule
                                  (new_transaction (uuid4 E) date description f) issues) w0
                 = Some (Raised e, sc, w1)) ->
            rule ∉ violated_rules (rule_container w) (rule_container w)
                     (new_transaction (uuid4 E) date description f) [] w).
  { intros rule Hr Hin. destruct (Hkept rule Hin) as (issues & w0 & v & sc & w1 & Hv & _).
    destruct (Hr issues w0) as (e & sc' & w1' & Hraise). congruence. }
  split; [|split; [|split; [|split; [|split]]]].
  - rewrite (audit_transaction_effect_free _ _ _ _ _ _ _ Hf He Hfree Hexc Hfuel).
    unfold audit_response. simpl. by rewrite length_map.
  - apply violated_rules_sublist.
  - exact Hkept.
  - intros pre rule post e sc w1 Hrules Hraise.
    rewrite (f_equal (fun rest =>
                        violated_rules (rule_container w) rest
                          (new_transaction (uuid4 E) date description f) [] w) Hrules).
    destruct (violated_rules_middle (rule_container w) pre rule post
                (new_transaction (uuid4 E) date description f) w)
      as (later & Hlater & ->).
    exists later. split; [done|]. unfold violated. by rewrite Hraise.
  - exact Hnot.
  - intros Hall. rewrite Forall_forall in Hall.
    pose proof (violated_rules_sublist (rule_container w) (rule_container w)
                  (new_transaction (uuid4 E) date description f) [] w) as Hsub.
    destruct (violated_rules _ _ _ _ _) as [|rule kept]; [done|].
    exfalso. apply (Hnot rule); [|apply list_elem_of_here].
    apply Hall. eapply elem_of_sublist; [|exact Hsub]. apply list_elem_of_here.
Qed.

End Audit.

(** ** update_compliance *)

Lemma update_compliance_run E data description check w :
  getitem data "rule_description" = Returned description ->
  getitem data "rule_check" = Returned check ->
  run (update_compliance E data) w =
    match upsert_item_fault E with
    | None =>
        (Returned (Response (jsonify [("status", PyStr "success");
                                      ("rule_id", PyStr (uuid4 E))]) 201),
         World (transaction_container w)
               (upsert (fun r => Some (rule_id r)) (RuleDoc (uuid4 E) description check)
                       (rule_container w))
               (log w))
    | Some e =>
        if is_Exception e
        then (Returned (Response (jsonify [("error", PyStr (exn_str e))]) 500),
              logged w [LogError (ErrorUpdatingCompliance e)])
        else (Raised e, w)
    end.
Proof.
  intros Hd Hc. unfold run, update_compliance.
  rewrite Hd, Hc, !bind_lift_returned.
  unfold try_except, bind at 1, rule_container_upsert_item.
  destruct (upsert_item_fault E) as [e|]; [|done]. by destruct (is_Exception e).
Qed.

Section Upsert.
Context `{RT : PyRuntime}.

(** C1 (amended). The rule text is not compiled or checked when a rule is
    stored: whatever the text says, and whatever field it names, the upsert
    succeeds as soon as the store takes the write, and the rule is then among
    those [check_compliance] reads, text unchanged.  The unknown field shows
    only when a transaction is audited: [str.format] raises KeyError, which
    is logged, and the rule is passed over. *)
Theorem rule_text_is_stored_unchecked E description check w :
  upsert_item_fault E = None ->
  run (update_compliance E (rule_payload description check)) w =
    (Returned (Response (jsonify [("status", PyStr "success");
                                  ("rule_id", PyStr (uuid4 E))]) 201),
     World (transaction_container w)
           (upsert (fun r => Some (rule_id r)) (RuleDoc (uuid4 E) description check)
                   (rule_container w))
           (log w))
  /\ RuleDoc (uuid4 E) description check
       ∈ rule_container (snd (run (update_compliance E (rule_payload description check)) w))
  /\ (forall rules text (transaction : dict) issues key w0,
        check = PyStr text ->
        str_format text transaction = Raised (Exn KeyError key) ->
        run_partial (rule_step (Frame transaction rules issues)
                       (rule_dict (RuleDoc (uuid4 E) description check))) w0
          = Some (Returned (Frame transaction rules issues),
                  logged w0 [LogInfo (CheckingRule description);
                             LogError (ErrorEvaluatingRule description (Exn KeyError key))])).
Proof.
  intros He.
  assert (Hrun : run (update_compliance E (rule_payload description check)) w =
    (Returned (Response (jsonify [("status", PyStr "success");
                                  ("rule_id", PyStr (uuid4 E))]) 201),
     World (transaction_container w)
           (upsert (fun r => Some (rule_id r)) (RuleDoc (uuid4 E) description check)
                   (rule_container w))
           (log w))).
  { rewrite (update_compliance_run E _ description check), He; [done| |];
      unfold getitem, rule_payload; by simplify_map_eq. }
  split; [exact Hrun|]. split.
  - rewrite Hrun. simpl. apply elem_of_upsert.
  - intros rules text transaction issues key w0 -> Hfmt.
    unfold run_partial, rule_step.
    change (getitem (PyDict (rule_dict (RuleDoc (uuid4 E) description (PyStr text))))
              "rule_description") with (Returned description).
    unfold evaluate_rule.
    change (getitem (PyDict (sc_rule (in_scope (Frame transaction rules issues)
                                        (rule_dict (RuleDoc (uuid4 E) description
                                                      (PyStr text))))))
              "rule_check") with (Returned (PyStr text)).
    cbn [rule_check_format in_scope sc_transaction fr_transaction].
    rewrite Hfmt. unfold rule_error. cbn [is_Exception exn_class in_scope sc_rule].
    change (getitem (PyDict (rule_dict (RuleDoc (uuid4 E) description (PyStr text))))
              "rule_description") with (Returned description).
    unfold pbind, total, logging_error, logged, frame_of; simpl.
    by rewrite <- app_assoc.
Qed.

End Upsert.

(** C6 (amended). An upsert is all or nothing, and which of the two does
    not depend on the rule text: it answers 201 and the rule is in the
    container (at the end, when its id is new), or it answers something
    else and the rule container is as before; the second happens only when
    the payload lacks a key or the store refuses the write. *)
Theorem upsert_is_all_or_nothing E data w :
  (exists description check,
     getitem data "rule_description" = Returned description /\
     getitem data "rule_check" = Returned check /\
     upsert_item_fault E = None /\
     fst (run (update_compliance E data) w)
       = Returned (Response (jsonify [("status", PyStr "success");
                                      ("rule_id", PyStr (uuid4 E))]) 201) /\
     rule_container (snd (run (update_compliance E data) w))
       = upsert (fun r => Some (rule_id r)) (RuleDoc (uuid4 E) description check)
                (rule_container w) /\
     (Forall (fun r => rule_id r <> uuid4 E) (rule_container w) ->
      rule_container (snd (run (update_compliance E data) w))
        = rule_container w ++ [RuleDoc (uuid4 E) description check]))
  \/
  ((forall b, fst (run (update_compliance E data) w) <> Returned (Response b 201)) /\
   rule_container (snd (run (update_compliance E data) w)) = rule_container w /\
   (upsert_item_fault E = None ->
    exists e, getitem data "rule_description" = Raised e \/
              getitem data "rule_check" = Raised e)).
Proof.
  destruct (getitem data "rule_description") as [description|e] eqn:Hd.
  - destruct (getitem data "rule_check") as [check|e] eqn:Hc.
    + rewrite (update_compliance_run E data description check w Hd Hc).
      destruct (upsert_item_fault E) as [e|].
      * right. by destruct (is_Exception e).
      * left. exists description, check. repeat (split; [done|]). simpl.
        intros Hfresh. apply upsert_fresh.
        eapply Forall_impl; [exact Hfresh|]. simpl. intros r Hr. congruence.
    + right. unfold run, update_compliance.
      rewrite Hd, Hc, bind_lift_returned, bind_lift_raised. by eauto.
  - right. unfold run, update_compliance. rewrite Hd, bind_lift_raised. by eauto.
Qed.

(** ** generate_report *)

Section Report.
Context `{RT : PyRuntime}.

Lemma non_compliant_all_compliant transactions :
  all_compliant transactions -> non_compliant transactions = Returned [].
Proof.
  induction 1 as [|t transactions (v & Hv & Hb) _ IH]; simpl; [done|].
  by rewrite Hv, IH, Hb.
Qed.

Lemma jsonify_report_inj (a b : pyval) :
  jsonify [("report", a)] = jsonify [("report", b)] -> a = b.
Proof.
  intros H.
  apply (f_equal (fun v => match v with PyDict d => d !! "report" | _ => None end)) in H.
  unfold jsonify in H.
  change (list_to_map [("report", a)]) with (<["report" := a]> (∅ : dict)) in H.
  change (list_to_map [("report", b)]) with (<["report" := b]> (∅ : dict)) in H.
  rewrite !lookup_insert_eq in H. by injection H.
Qed.

(** C8 (amended). When every stored transaction is compliant (none at all
    included), the report is the fixed sentence "No non-compliant
    transactions found.", and the chat model is not asked.  A real report
    comes under the same "report" key with status 200: it differs from the
    sentinel exactly when the chat model's text is not that sentence. *)
Theorem all_compliant_gives_no_violations E w :
  all_compliant (transaction_container w) ->
  run (generate_report E) w = (Returned no_violations, w)
  /\
  (forall w' t ts lines message,
     non_compliant (transaction_container w') = Returned (t :: ts) ->
     detailed_transactions (t :: ts) = Returned lines ->
     perform_query_chat E (detailed_prompt lines) = Returned message ->
     run (generate_report E) w'
       = (Returned (Response (jsonify [("report", message)]) 200), w') /\
     (Response (jsonify [("report", message)]) 200 = no_violations
      <-> message = PyStr "No non-compliant transactions found.")).
Proof.
  intros Hall. split.
  - unfold run, generate_report, bind at 1, transaction_container_read_all_items.
    by rewrite (non_compliant_all_compliant _ Hall).
  - intros w' t ts lines message Hn Hl Hm. split.
    + unfold run, generate_report, bind at 1, transaction_container_read_all_items.
      rewrite Hn, bind_lift_returned, Hl, bind_lift_returned, Hm. reflexivity.
    + unfold no_violations. split.
      * intros H. apply jsonify_report_inj. by apply (f_equal body) in H.
      * by intros ->.
Qed.

End Report.

(** * Examples

    The statements above at concrete inputs, on the CPython excerpt. *)

Lemma excerpt_effect_free rules rule : effect_free (RT := excerpt) rules rule.
Proof.
  intros transaction issues w. unfold evaluate_rule.
  destruct (getitem _ _) as [check|e]; [|by eexists].
  destruct (rule_check_format _ _) as [text|e]; by eexists.
Qed.

Lemma excerpt_value_raises text e :
  excerpt_value text = Raised e -> is_Exception e = true.
Proof. unfold excerpt_value. repeat case_decide; by intros [= <-]. Qed.

Lemma excerpt_format_raises s transaction e :
  excerpt_format s transaction = Raised e -> is_Exception e = true.
Proof.
  unfold excerpt_format. repeat case_decide; try done.
  - destruct (transaction !! "amount"); [done|by intros [= <-]].
  - destruct (transaction !! "foo"); [done|by intros [= <-]].
Qed.

Lemma excerpt_raises_only_Exception rules rule :
  raises_only_Exception (RT := excerpt) rules rule.
Proof.
  intros transaction issues w e sc w'. unfold evaluate_rule.
  change (getitem (PyDict (sc_rule (rule_scope rules rule transaction issues))) "rule_check")
    with (Returned (rule_check rule)).
  destruct (rule_check rule) as [| | | |s| | |]; try by intros [= <- _ _].
  cbn [rule_check_format str_format excerpt py_eval].
  destruct (excerpt_format s _) as [text|e'] eqn:Hf.
  - unfold excerpt_eval. intros [= H _ _]. by apply excerpt_value_raises in H.
  - intros [= <- _ _]. by apply excerpt_format_raises in Hf.
Qed.

Lemma excerpt_all_effect_free rules rest :
  Forall (effect_free (RT := excerpt) rules) rest.
Proof. apply Forall_forall. intros rule _. apply excerpt_effect_free. Qed.

Lemma excerpt_all_raise_only_Exception rules rest :
  Forall (raises_only_Exception (RT := excerpt) rules) rest.
Proof. apply Forall_forall. intros rule _. apply excerpt_raises_only_Exception. Qed.


(** The rule "amount > 1000" of the specification: 1500.0 passes. *)
Example audit_1500_is_compliant :
  fst <$> run_partial (audit_transaction (RT := excerpt) 1 (quiet "t1")
                         (laptop (PyStr "1500.0")))
            (with_rules [over_1000 "r1"])
    = Some (Returned (audit_response (PyStr "t1") [])).
Proof. vm_compute. reflexivity. Qed.

(** ... and 500.0 is a violation, whose description is reported. *)
Example audit_500_is_violated :
  fst <$> run_partial (audit_transaction (RT := excerpt) 1 (quiet "t1")
                         (laptop (PyStr "500.0")))
            (with_rules [over_1000 "r1"])
    = Some (Returned (audit_response (PyStr "t1") [PyStr "Amount must exceed 1000"])).
Proof. vm_compute. reflexivity. Qed.

(** The amount "abc" is answered with 400 before any rule is looked at and
    before anything is written. *)
Example audit_abc_is_rejected :
  run_partial (audit_transaction (RT := excerpt) 1 (quiet "t1") (laptop (PyStr "abc")))
      (with_rules [over_1000 "r1"])
    = Some (Returned (Response (jsonify [("error", PyStr "Invalid amount format")]) 400),
            logged (with_rules [over_1000 "r1"])
              [LogError (ErrorConvertingAmount
                           (Exn ValueError "could not convert string to float: 'abc'"))]).
Proof. by apply (audit_transaction_rejects_string (RT := excerpt)). Qed.

(** Two rules with one description, both violated: the description is
    listed twice. *)
Example shared_description_is_listed_twice :
  fst <$> run_partial (audit_transaction (RT := excerpt) 3 (quiet "t1")
                         (laptop (PyStr "500.0")))
            (with_rules [over_1000 "r1"; unknown_field "r2"; over_1000 "r3"])
    = Some (Returned (audit_response (PyStr "t1")
                        [PyStr "Amount must exceed 1000"; PyStr "Amount must exceed 1000"])).
Proof. vm_compute. reflexivity. Qed.

(** With fewer turns than rules the loop of the embedding has no result. *)
Example too_few_turns :
  run_partial (check_compliance (RT := excerpt) 2 (laptop_transaction "t1" f500)) three_rules
    = None.
Proof. vm_compute. reflexivity. Qed.

(** C1, counterexample: a rule over the unknown field foo is stored with
    status 201 and is from then on in the rule container; an audit then
    tries it, logs the KeyError and answers that the transaction is
    compliant. *)
Lemma unknown_field_rule_is_accepted :
  run (update_compliance (quiet "r1")
         (rule_payload (PyStr "foo must exceed 10") (PyStr "{transaction[foo]} > 10")))
      empty_world
    = (Returned (Response (jsonify [("status", PyStr "success");
                                    ("rule_id", PyStr "r1")]) 201),
       with_rules [unknown_field "r1"])
  /\ fst <$> run_partial (audit_transaction (RT := excerpt) 1 (quiet "t1")
                            (laptop (PyStr "500.0")))
               (with_rules [unknown_field "r1"])
     = Some (Returned (audit_response (PyStr "t1") []))
  /\ log <$> (snd <$> run_partial (audit_transaction (RT := excerpt) 1 (quiet "t1")
                                     (laptop (PyStr "500.0")))
                        (with_rules [unknown_field "r1"]))
     = Some [LogInfo (CheckingRule (PyStr "foo must exceed 10"));
             LogError (ErrorEvaluatingRule (PyStr "foo must exceed 10")
                         (Exn KeyError "'foo'"))].
Proof. repeat split; vm_compute; reflexivity. Qed.

(** A rule over a known field, stored in the same way. *)
Lemma rule_text_is_stored_unchecked_witness :
  upsert_item_fault (quiet "r2") = None /\
  RuleDoc "r2" (PyStr "Amount must exceed 1000") (PyStr "{transaction[amount]} > 1000")
    ∈ rule_container
        (snd (run (update_compliance (quiet "r2")
                     (rule_payload (PyStr "Amount must exceed 1000")
                                   (PyStr "{transaction[amount]} > 1000")))
                  (with_rules [unknown_field "r1"]))).
Proof.
  split; [reflexivity|].
  apply (rule_text_is_stored_unchecked (RT := excerpt) (quiet "r2")). reflexivity.
Defined.


(** C4, counterexample: the text [rule.pop('rule_description') and False]
    evaluates to False, and yet nothing is appended: line 118 finds no
    description in the rule any more, and the KeyError leaves
    [check_compliance] through the handler of line 121. *)
Lemma false_value_is_not_recorded :
  evaluate_rule (RT := effectful)
    (rule_scope [pops_description "r1"] (pops_description "r1")
       (laptop_transaction "t1" f500) [])
    (checking (pops_description "r1") (with_rules [pops_description "r1"]))
    = Some (Returned (PyBool false),
            pop_description
              (rule_scope [pops_description "r1"] (pops_description "r1")
                 (laptop_transaction "t1" f500) []),
            checking (pops_description "r1") (with_rules [pops_description "r1"])) /\
  run_partial (check_compliance (RT := effectful) 1 (laptop_transaction "t1" f500))
      (with_rules [pops_description "r1"])
    = Some (Raised (Exn KeyError "'rule_description'"),
            checking (pops_description "r1") (with_rules [pops_description "r1"])).
Proof. split; vm_compute; reflexivity. Qed.

(** Rules r1 and r3 are violated by 500.0, r2 raises KeyError: the third
    rule's description follows what the rules before it have left. *)
Lemma violation_iff_evaluates_false_witness :
  rule_container three_rules = [over_1000 "r1"; unknown_field "r2"] ++ over_1000 "r3" :: [] /\
  laptop_transaction "t1" f500 !! "amount" = Some (PyFloat f500) /\
  length (rule_container three_rules) <= 3 /\
  exists after,
    fst <$> run_partial (check_compliance (RT := excerpt) 3 (laptop_transaction "t1" f500))
              three_rules
      = Some (Returned ([PyStr "Amount must exceed 1000"]
                        ++ [PyStr "Amount must exceed 1000"] ++ after,
                        laptop_transaction "t1" f500)).
Proof.
  assert (Hle : length (rule_container three_rules) <= 3) by (simpl; lia).
  split; [reflexivity|]. split; [reflexivity|]. split; [exact Hle|].
  destruct (violation_iff_evaluates_false (RT := excerpt) 3
              [over_1000 "r1"; unknown_field "r2"] (over_1000 "r3") []
              (laptop_transaction "t1" f500) (PyFloat f500) f500 three_rules
              eq_refl eq_refl eq_refl
              (excerpt_all_effect_free _ _) (excerpt_all_raise_only_Exception _ _) Hle)
    as (after & _ & Hrun & _).
  exists after. rewrite Hrun. vm_compute. reflexivity.
Defined.



(** C7, counterexample: 500.0 violates the first rule, and the text of the
    second, [compliance_issues.clear()], evaluates to None, a false value,
    so both rules are violated.  The issue list has the second description
    only. *)
Lemma issue_list_can_be_emptied :
  run_partial (check_compliance (RT := effectful) 2 (laptop_transaction "t1" f500))
      (with_rules [over_1000 "r1"; clears_issues "r2"])
    = Some (Returned ([PyStr "empties the issue list"], laptop_transaction "t1" f500),
            logged (with_rules [over_1000 "r1"; clears_issues "r2"])
              [LogInfo (CheckingRule (PyStr "Amount must exceed 1000"));
               LogInfo (RuleViolation (PyStr "Amount must exceed 1000"));
               LogInfo (CheckingRule (PyStr "empties the issue list"));
               LogInfo (RuleViolation (PyStr "empties the issue list"))]) /\
  map rule_description [over_1000 "r1"; clears_issues "r2"]
    <> [PyStr "empties the issue list"].
Proof. split; [vm_compute; reflexivity|]. discriminate. Qed.

(** Rules r1 and r3 share a description and are both violated by 500.0; r2
    raises KeyError.  The description is listed twice, in rule order. *)
Lemma compliance_issues_follow_rule_order_witness :
  laptop_transaction "t1" f500 !! "amount" = Some (PyFloat f500) /\
  py_float (RT := excerpt) (PyFloat f500) = Returned f500 /\
  Forall (effect_free (RT := excerpt) (rule_container three_rules))
         (rule_container three_rules) /\
  Forall (raises_only_Exception (RT := excerpt) (rule_container three_rules))
         (rule_container three_rules) /\
  length (rule_container three_rules) <= 3 /\
  fst <$> run_partial (check_compliance (RT := excerpt) 3 (laptop_transaction "t1" f500))
            three_rules
    = Some (Returned ([PyStr "Amount must exceed 1000"; PyStr "Amount must exceed 1000"],
                      laptop_transaction "t1" f500)).
Proof.
  assert (Hle : length (rule_container three_rules) <= 3) by (simpl; lia).
  split; [reflexivity|]. split; [reflexivity|].
  split; [apply excerpt_all_effect_free|].
  split; [apply excerpt_all_raise_only_Exception|].
  split; [exact Hle|].
  rewrite (proj1 (compliance_issues_follow_rule_order (RT := excerpt) 3
                    (laptop_transaction "t1" f500) (PyFloat f500) f500 three_rules
                    eq_refl eq_refl (excerpt_all_effect_free _ _)
                    (excerpt_all_raise_only_Exception _ _) Hle)).
  vm_compute. reflexivity.
Defined.

(** C9, counterexample: the text [transaction.__setitem__('amount', 0.0)]
    is an expression, and evaluating it writes the transaction:
    [check_compliance] got the amount 1500.0 and hands back 0.0.  The rule
    counts as violated because [__setitem__] returns None. *)
Lemma rule_text_can_change_the_transaction :
  laptop_transaction "t1" f1500 !! "amount" = Some (PyFloat f1500) /\
  fst <$> run_partial (check_compliance (RT := effectful) 1 (laptop_transaction "t1" f1500))
            (with_rules [resets_amount "r1"])
    = Some (Returned ([PyStr "resets the amount"],
                      <["amount" := PyFloat (S754_zero false)]>
                        (laptop_transaction "t1" f1500))) /\
  (<["amount" := PyFloat (S754_zero false)]> (laptop_transaction "t1" f1500)) !! "amount"
    <> laptop_transaction "t1" f1500 !! "amount".
Proof.
  split; [reflexivity|]. split; [vm_compute; reflexivity|].
  vm_compute. discriminate.
Qed.

(** A transaction with the amount 500.0 and three rules that write
    nothing. *)
Lemma pure_rule_texts_keep_the_transaction_witness :
  laptop_transaction "t1" f500 !! "amount" = Some (PyFloat f500) /\
  py_float (RT := excerpt) (PyFloat f500) = Returned f500 /\
  length (rule_container three_rules) <= 3 /\
  exists issues l,
    run_partial (check_compliance (RT := excerpt) 3 (laptop_transaction "t1" f500))
        three_rules
      = Some (Returned (issues, laptop_transaction "t1" f500), logged three_rules l).
Proof.
  assert (Hle : length (rule_container three_rules) <= 3) by (simpl; lia).
  split; [reflexivity|]. split; [reflexivity|]. split; [exact Hle|].
  exact (proj2 (pure_rule_texts_keep_the_transaction (RT := excerpt) 3
                  (laptop_transaction "t1" f500) (PyFloat f500) f500 three_rules
                  eq_refl eq_refl (excerpt_all_effect_free _ _)
                  (excerpt_all_raise_only_Exception _ _) Hle) eq_refl).
Defined.

(** C10, counterexample: the text [compliance_issues.append('x') or 1/0]
    raises ZeroDivisionError, and the rule has left an entry in
    compliance_issues all the same: the answer lists it, with is_compliant
    false. *)
Lemma raising_rule_can_leave_an_issue :
  evaluate_rule (RT := effectful)
    (rule_scope [appends_issue "r1"] (appends_issue "r1") (laptop_transaction "t1" f500) [])
    (checking (appends_issue "r1") (with_rules [appends_issue "r1"]))
    = Some (Raised zero_division,
            rule_scope [appends_issue "r1"] (appends_issue "r1")
              (laptop_transaction "t1" f500) [PyStr "x"],
            checking (appends_issue "r1") (with_rules [appends_issue "r1"])) /\
  fst <$> run_partial (audit_transaction (RT := effectful) 1 (quiet "t1")
                         (laptop (PyFloat f500)))
            (with_rules [appends_issue "r1"])
    = Some (Returned (Response (jsonify [("transaction_id", PyStr "t1");
                                         ("compliance_issues", PyList [PyStr "x"]);
                                         ("is_compliant", PyBool false)]) 201)).
Proof. split; vm_compute; reflexivity. Qed.

(** Two rules that both raise: the answer is that of an empty rule set. *)
Lemma failed_rules_are_dropped_silently_witness :
  py_float (RT := excerpt) (PyStr "500.0") = Returned f500 /\
  upsert_item_fault (quiet "t1") = None /\
  length (rule_container failing_rules) <= 2 /\
  fst <$> run_partial (audit_transaction (RT := excerpt) 2 (quiet "t1")
                         (laptop (PyStr "500.0")))
            failing_rules
    = Some (Returned (Response (jsonify [("transaction_id", PyStr "t1");
                                         ("compliance_issues", PyList []);
                                         ("is_compliant", PyBool true)]) 201)).
Proof.
  assert (Hle : length (rule_container failing_rules) <= 2) by (simpl; lia).
  split; [reflexivity|]. split; [reflexivity|]. split; [exact Hle|].
  unfold laptop.
  rewrite (proj1 (failed_rules_are_dropped_silently (RT := excerpt) 2 (quiet "t1")
                    (PyStr "2024-01-01") (PyStr "laptop") (PyStr "500.0") f500
                    failing_rules eq_refl eq_refl (excerpt_all_effect_free _ _)
                    (excerpt_all_raise_only_Exception _ _) Hle)).
  vm_compute. reflexivity.
Defined.

(** C6, counterexample: the text ")(" is no Python expression, and yet the
    upsert answers 201 and the rule container has one rule more. *)
Lemma invalid_rule_changes_rule_set :
  run (update_compliance (quiet "r2") (rule_payload (PyStr "broken") (PyStr ")(")))
      (with_rules [over_1000 "r1"])
    = (Returned (Response (jsonify [("status", PyStr "success");
                                    ("rule_id", PyStr "r2")]) 201),
       with_rules [over_1000 "r1"; RuleDoc "r2" (PyStr "broken") (PyStr ")(")])
  /\ rule_container
       (snd (run (update_compliance (quiet "r2") (rule_payload (PyStr "broken") (PyStr ")(")))
                 (with_rules [over_1000 "r1"])))
     <> rule_container (with_rules [over_1000 "r1"]).
Proof. split; [vm_compute; reflexivity|]. vm_compute. discriminate. Qed.

(** C8, counterexample: one non-compliant transaction is stored and the chat
    model answers with the sentence of the sentinel: the real report is the
    sentinel. *)
Lemma real_report_can_equal_sentinel :
  non_compliant [violating_transaction] = Returned [violating_transaction] /\
  fst (run (generate_report (RT := excerpt) echo) (World [violating_transaction] [] []))
    = Returned no_violations.
Proof. split; vm_compute; reflexivity. Qed.

(** One compliant transaction in the store, and a chat model that is not
    asked. *)
Lemma all_compliant_gives_no_violations_witness :
  all_compliant (transaction_container (World [compliant_transaction] [] [])) /\
  run (generate_report (RT := excerpt) echo) (World [compliant_transaction] [] [])
    = (Returned no_violations, World [compliant_transaction] [] []).
Proof.
  assert (H : all_compliant (transaction_container (World [compliant_transaction] [] []))).
  { repeat constructor. exists (PyBool true). split; vm_compute; reflexivity. }
  split; [exact H|].
  apply (all_compliant_gives_no_violations (RT := excerpt) echo
           (World [compliant_transaction] [] []) H).
Defined.

(** * Further properties

    What the handlers do at their edges, what they leave alone, and how
    they compose. *)



(** ** audit_transaction at its edges *)

Section AuditEdges.
Context `{RT : PyRuntime}.

(** X1. An amount string that [float] does not accept is answered with 400
    "Invalid amount format": one error line is logged, with the text of the
    ValueError, which quotes the string as [repr] gives it; no rule is read
    or checked, nothing is written. *)
Theorem unparsable_amount_is_answered_400 fuel E data date description s w :
  getitem data "date" = Returned date ->
  getitem data "description" = Returned description ->
  getitem data "amount" = Returned (PyStr s) ->
  float_of_str s = None ->
  run_partial (audit_transaction fuel E data) w =
    Some (Returned (Response (jsonify [("error", PyStr "Invalid amount format")]) 400),
          logged w [LogError (ErrorConvertingAmount
                                (Exn ValueError ("could not convert string to float: "
                                                 +:+ py_repr (PyStr s))))]).
Proof.
  intros Hd Hde Ha Hs.
  rewrite audit_transaction_unfold. unfold build_transaction.
  rewrite Hd, Hde, Ha, !bind_lift_returned. cbv beta.
  unfold py_float. rewrite Hs. reflexivity.
Qed.

(** X2. A payload without date, description or amount makes the handler
    raise KeyError for the first of these keys, in this order, that is
    missing: the exception is not caught, nothing is logged and nothing is
    written. *)
Theorem missing_field_raises_KeyError fuel E (d : dict) w :
  d !! "date" = None \/ d !! "description" = None \/ d !! "amount" = None ->
  exists key,
    first_missing d = Some key /\
    d !! key = None /\
    run_partial (audit_transaction fuel E (PyDict d)) w
      = Some (Raised (Exn KeyError ("'" +:+ key +:+ "'")), w).
Proof.
  intros Hmiss. rewrite audit_transaction_unfold.
  unfold build_transaction, getitem, first_missing.
  destruct (d !! "date") as [date|] eqn:Hd.
  - destruct (d !! "description") as [description|] eqn:Hde.
    + destruct (d !! "amount") as [amount|] eqn:Ha.
      * destruct Hmiss as [?|[?|?]]; done.
      * exists "amount". split; [done|]. split; [done|]. reflexivity.
    + exists "description". split; [done|]. split; [done|]. reflexivity.
  - exists "date". split; [done|]. split; [done|]. reflexivity.
Qed.

(** X3. When the store refuses the write with an exception that derives
    from [Exception], the handler answers 500 with the text of the
    exception and logs it last; every rule has been checked before, and no
    transaction is stored.  (For rule texts that write nothing and raise
    only [Exception]s.) *)
Theorem refused_write_is_answered_500 fuel E date description a f w e :
  py_float a = Returned f ->
  upsert_item_fault E = Some e ->
  is_Exception e = true ->
  Forall (effect_free (rule_container w)) (rule_container w) ->
  Forall (raises_only_Exception (rule_container w)) (rule_container w) ->
  length (rule_container w) <= fuel ->
  exists l,
    run_partial (audit_transaction fuel E (audit_payload date description a)) w
      = Some (Returned (Response (jsonify [("error", PyStr (exn_str e))]) 500),
              logged w (l ++ [LogError (ErrorSubmittingData e)])) /\
    checked l = map rule_description (rule_container w).
Proof.
  intros Hf He Hc Hfree Hexc Hfuel.
  rewrite (audit_transaction_built _ _ _ _ _ _ _ Hf).
  rewrite (check_compliance_effect_free _ _ (PyFloat f) f);
    [|by unfold new_transaction; simplify_map_eq|done|done|done|done].
  eexists. split; [|apply checked_loop_log].
  rewrite (submit_refused _ _ _ _ _ He), Hc. by rewrite logged_logged.
Qed.



(** X6. With no rule stored, a payload with a usable amount is always
    answered 201 with no issue and is_compliant true, whatever the runtime;
    the transaction is written and nothing is logged. *)
Theorem no_rules_means_compliant fuel E date description a f w :
  rule_container w = [] ->
  py_float a = Returned f ->
  upsert_item_fault E = None ->
  run_partial (audit_transaction fuel E (audit_payload date description a)) w
    = Some (Returned (Response (jsonify [("transaction_id", PyStr (uuid4 E));
                                         ("compliance_issues", PyList []);
                                         ("is_compliant", PyBool true)]) 201),
            World (upsert doc_id
                     (stored_transaction [] (new_transaction (uuid4 E) date description f))
                     (transaction_container w))
                  [] (log w)).
Proof.
  intros Hr Hf He.
  rewrite (audit_transaction_built _ _ _ _ _ _ _ Hf).
  rewrite (check_compliance_converted _ _ (PyFloat f) f);
    [|by unfold new_transaction; simplify_map_eq|done].
  rewrite new_transaction_amount, Hr, rule_loop_end by done.
  cbn [fr_compliance_issues fr_transaction rule_frame].
  rewrite (submit_accepted _ _ _ _ (uuid4 E) He).
  - by rewrite Hr.
  - unfold doc_id, new_transaction. by simplify_map_eq.
Qed.

(** X7. What a successful audit stores is what was sent: the document is
    in the container under the uuid drawn, with the date and the
    description of the payload and the amount as a float, and its verdict
    agrees with its issues.  (For rule texts that write nothing.) *)
Theorem stored_transaction_has_the_fields_sent fuel E date description a f w :
  py_float a = Returned f ->
  upsert_item_fault E = None ->
  Forall (effect_free (rule_container w)) (rule_container w) ->
  Forall (raises_only_Exception (rule_container w)) (rule_container w) ->
  length (rule_container w) <= fuel ->
  exists (t : dict) o w',
    run_partial (audit_transaction fuel E (audit_payload date description a)) w
      = Some (o, w') /\
    t ∈ transaction_container w' /\
    t !! "id" = Some (PyStr (uuid4 E)) /\
    t !! "date" = Some date /\
    t !! "description" = Some description /\
    t !! "amount" = Some (PyFloat f) /\
    consistent t.
Proof.
  intros Hf He Hfree Hexc Hfuel.
  rewrite (audit_transaction_effect_free _ _ _ _ _ _ _ Hf He Hfree Hexc Hfuel).
  eexists _, _, _. split; [reflexivity|]. split; [apply elem_of_upsert|].
  unfold stored_transaction, new_transaction.
  repeat (split; [by simplify_map_eq|]).
  eexists. by simplify_map_eq.
Qed.

End AuditEdges.

(** ** check_compliance at its edges *)

Section CheckEdges.
Context `{RT : PyRuntime}.

(** X8. Called on a transaction whose amount is a string that [float] does
    not accept, [check_compliance] returns the one issue "Invalid
    transaction amount format": it logs the ValueError, reads no rule and
    hands the transaction back unchanged. *)
Theorem check_compliance_reports_bad_amount fuel (transaction : dict) s w :
  transaction !! "amount" = Some (PyStr s) ->
  float_of_str s = None ->
  run_partial (check_compliance fuel transaction) w =
    Some (Returned ([PyStr "Invalid transaction amount format"], transaction),
          logged w [LogError (ErrorConvertingAmount
                                (Exn ValueError ("could not convert string to float: "
                                                 +:+ py_repr (PyStr s))))]).
Proof.
  intros Ha Hs. unfold run_partial, check_compliance, getitem.
  rewrite Ha, bind_lift_returned. unfold py_float. rewrite Hs. reflexivity.
Qed.

(** X9. On the transaction that [audit_transaction] builds, the conversion
    of line 106 changes nothing and cannot fail: [check_compliance] goes
    straight to the rules, with the transaction as it got it, so its answer
    "Invalid transaction amount format" never comes up in an audit. *)
Theorem check_after_build_goes_to_the_rules fuel id date description f w :
  run_partial (check_compliance fuel (new_transaction id date description f)) w =
    match rule_loop fuel 0
            (rule_frame (rule_container w) (new_transaction id date description f) []) w with
    | Some (Returned fr, w') =>
        Some (Returned (fr_compliance_issues fr, fr_transaction fr), w')
    | Some (Raised e, w') => Some (Raised e, w')
    | None => None
    end.
Proof.
  rewrite (check_compliance_converted _ _ (PyFloat f) f);
    [|by unfold new_transaction; simplify_map_eq|done].
  by rewrite new_transaction_amount.
Qed.

(** X10. Called on a transaction without an amount, [check_compliance]
    raises KeyError: the lookup is inside the try block, but only ValueError
    is caught there.  Nothing is logged. *)
Theorem check_compliance_without_amount fuel (transaction : dict) w :
  transaction !! "amount" = None ->
  run_partial (check_compliance fuel transaction) w
    = Some (Raised (Exn KeyError "'amount'"), w).
Proof.
  intros Ha. unfold run_partial, check_compliance, getitem. by rewrite Ha.
Qed.

(** X11. A rule whose rule_check is not a string (update_compliance stores
    any JSON value) can never be reported as violated: the call of [format]
    raises AttributeError, which is logged, and the turn of the loop leaves
    the issues and the transaction as they were.  This holds for every
    runtime. *)
Theorem rule_check_must_be_a_string rules rule (transaction : dict) issues w :
  (forall s, rule_check rule <> PyStr s) ->
  exists e,
    exn_class e = AttributeError /\
    run_partial (rule_step (Frame transaction rules issues) (rule_dict rule)) w =
      Some (Returned (Frame transaction rules issues),
            logged w [LogInfo (CheckingRule (rule_description rule));
                      LogError (ErrorEvaluatingRule (rule_description rule) e)]).
Proof.
  intros Hs.
  exists (Exn AttributeError
            ("'" +:+ type_name (rule_check rule) +:+ "' object has no attribute 'format'")).
  split; [done|].
  unfold run_partial, rule_step.
  change (getitem (PyDict (rule_dict rule)) "rule_description")
    with (Returned (rule_description rule)).
  unfold evaluate_rule.
  change (getitem (PyDict (sc_rule (in_scope (Frame transaction rules issues)
                                      (rule_dict rule)))) "rule_check")
    with (Returned (rule_check rule)).
  cbv beta iota.
  assert (Hfmt : rule_check_format (rule_check rule)
                   (sc_transaction (in_scope (Frame transaction rules issues)
                                      (rule_dict rule)))
                 = Raised (Exn AttributeError
                             ("'" +:+ type_name (rule_check rule)
                              +:+ "' object has no attribute 'format'"))).
  { unfold rule_check_format.
    destruct (rule_check rule) as [| | | |s| | |]; try done. by destruct (Hs s). }
  rewrite Hfmt. unfold rule_error. cbn [is_Exception exn_class in_scope sc_rule].
  change (getitem (PyDict (rule_dict rule)) "rule_description")
    with (Returned (rule_description rule)).
  unfold pbind, total, logging_error, logged, frame_of; simpl.
  by rewrite <- app_assoc.
Qed.


(** X13. The log tells what the check has done: "Checking rule" is logged
    once for every rule of the container, in order, and the issues returned
    are exactly the descriptions logged as "Rule violation", in order.  (For
    rule texts that write nothing and raise only [Exception]s.) *)
Theorem issues_are_the_logged_violations fuel (transaction : dict) a f w :
  transaction !! "amount" = Some a ->
  py_float a = Returned f ->
  Forall (effect_free (rule_container w)) (rule_container w) ->
  Forall (raises_only_Exception (rule_container w)) (rule_container w) ->
  length (rule_container w) <= fuel ->
  exists l,
    run_partial (check_compliance fuel transaction) w
      = Some (Returned (violations l, <["amount" := PyFloat f]> transaction), logged w l) /\
    checked l = map rule_description (rule_container w).
Proof.
  intros Ha Hf Hfree Hexc Hfuel.
  rewrite (check_compliance_effect_free _ _ _ _ _ Ha Hf Hfree Hexc Hfuel).
  eexists. split; [by rewrite violations_loop_log|]. apply checked_loop_log.
Qed.

(** X14. An audit reports nothing but descriptions of stored rules, and at
    most one for each rule: every issue of the answer is the description of
    a rule of the container, and there are no more issues than rules.  (For
    rule texts that write nothing and raise only [Exception]s.) *)
Theorem issues_are_descriptions_of_stored_rules fuel E date description a f w :
  py_float a = Returned f ->
  upsert_item_fault E = None ->
  Forall (effect_free (rule_container w)) (rule_container w) ->
  Forall (raises_only_Exception (rule_container w)) (rule_container w) ->
  length (rule_container w) <= fuel ->
  exists issues,
    fst <$> run_partial (audit_transaction fuel E (audit_payload date description a)) w
      = Some (Returned (audit_response (PyStr (uuid4 E)) issues)) /\
    length issues <= length (rule_container w) /\
    (forall d, d ∈ issues ->
       exists rule, rule ∈ rule_container w /\ rule_description rule = d).
Proof.
  intros Hf He Hfree Hexc Hfuel.
  rewrite (audit_transaction_effect_free _ _ _ _ _ _ _ Hf He Hfree Hexc Hfuel).
  pose proof (violated_rules_sublist (rule_container w) (rule_container w)
                (new_transaction (uuid4 E) date description f) [] w) as Hsub.
  eexists. split; [done|]. split.
  - rewrite length_map. by apply sublist_length.
  - intros d Hd. apply list_elem_of_In, in_map_iff in Hd as (rule & <- & Hin).
    exists rule. split; [|done].
    eapply elem_of_sublist; [|exact Hsub]. by apply list_elem_of_In.
Qed.

End CheckEdges.

(** ** generate_report at its edges *)

Section ReportEdges.
Context `{RT : PyRuntime}.

(** X15. [generate_report] only reads: whatever is stored and whatever the
    chat model does, the containers and the log are afterwards as they were
    before. *)
Theorem generate_report_only_reads E w :
  snd (run (generate_report E) w) = w.
Proof.
  unfold run, generate_report, bind at 1, transaction_container_read_all_items.
  destruct (non_compliant (transaction_container w)) as [[|t ts]|e];
    [done| |by rewrite bind_lift_raised].
  rewrite bind_lift_returned.
  destruct (detailed_transactions (t :: ts)) as [lines|e];
    [rewrite bind_lift_returned|by rewrite bind_lift_raised].
  destruct (perform_query_chat E (detailed_prompt lines)) as [message|e];
    [by rewrite bind_lift_returned|by rewrite bind_lift_raised].
Qed.

Lemma non_compliant_missing_key (ts : list dict) (t : dict) :
  t ∈ ts -> t !! "is_compliant" = None ->
  non_compliant ts = Raised (Exn KeyError "'is_compliant'").
Proof.
  intros Hin Hnone. induction ts as [|t0 ts IH]; [by apply elem_of_nil in Hin|].
  simpl. destruct (t0 !! "is_compliant") as [v|] eqn:Hv; [|done].
  apply elem_of_cons in Hin as [->|Hin]; [congruence|].
  by rewrite (IH Hin).
Qed.

(** X16. One stored document without is_compliant is enough to make the
    report fail: the handler raises KeyError, wherever the document stands
    in the container, and the chat model is not asked. *)
Theorem report_needs_is_compliant_everywhere E w (t : dict) :
  t ∈ transaction_container w ->
  t !! "is_compliant" = None ->
  run (generate_report E) w = (Raised (Exn KeyError "'is_compliant'"), w).
Proof.
  intros Hin Hnone.
  unfold run, generate_report, bind at 1, transaction_container_read_all_items.
  by rewrite (non_compliant_missing_key _ _ Hin Hnone).
Qed.

Lemma non_compliant_filter (ts : list dict) :
  Forall (fun t : dict => is_Some (t !! "is_compliant")) ts ->
  non_compliant ts = Returned (filter (fun t => flagged t = true) ts).
Proof.
  induction 1 as [|t ts [v Hv] _ IH]; simpl; [done|].
  assert (Hfl : flagged t = negb (py_bool v)) by (unfold flagged; by rewrite Hv).
  rewrite Hv, IH, filter_cons.
  destruct (negb (py_bool v)).
  - by rewrite decide_True.
  - rewrite decide_False; [done|]. by rewrite Hfl.
Qed.

Lemma complete_detailed_transaction (t : dict) :
  complete t -> exists line, detailed_transaction t = Returned line.
Proof.
  intros Hc. unfold complete in Hc. rewrite !Forall_cons in Hc.
  destruct Hc as ([? Hid] & [? Hd] & [? Hde] & [? Ha] & [? Hi] & _).
  unfold detailed_transaction, getitem. rewrite Hid, Hd, Hde, Ha, Hi. by eexists.
Qed.

Lemma complete_detailed_transactions (ts : list dict) :
  Forall complete ts ->
  exists lines, detailed_transactions ts = Returned lines /\ length lines = length ts.
Proof.
  induction 1 as [|t ts Ht _ (lines & IH & Hlen)]; simpl; [by exists []|].
  destruct (complete_detailed_transaction t Ht) as [line ->].
  rewrite IH. exists (line :: lines). simpl. by rewrite Hlen.
Qed.

(** X17. On documents that have the six fields an audit writes, the report
    does not fail on its own.  It is the sentinel when no document is
    flagged; otherwise the chat model is asked once, with one line for each
    flagged document in the order of the container, and its answer (or its
    exception) is the handler's. *)
Theorem report_on_complete_documents E w :
  Forall complete (transaction_container w) ->
  exists lines,
    detailed_transactions (filter (fun t => flagged t = true) (transaction_container w))
      = Returned lines /\
    length lines
      = length (filter (fun t => flagged t = true) (transaction_container w)) /\
    run (generate_report E) w
      = (match lines with
         | [] => Returned no_violations
         | _ => chat_answer E lines
         end, w).
Proof.
  intros Hc.
  assert (Hkeys : Forall (fun t : dict => is_Some (t !! "is_compliant"))
                         (transaction_container w)).
  { eapply Forall_impl; [exact Hc|]. intros t Ht. unfold complete in Ht.
    rewrite !Forall_cons in Ht. tauto. }
  assert (Hsub : Forall complete
                   (filter (fun t => flagged t = true) (transaction_container w))).
  { apply Forall_forall. intros t Ht. apply list_elem_of_filter in Ht as [_ Ht].
    rewrite Forall_forall in Hc. by apply Hc. }
  destruct (complete_detailed_transactions _ Hsub) as (lines & Hl & Hlen).
  exists lines. split; [done|]. split; [done|].
  unfold run, generate_report, bind at 1, transaction_container_read_all_items.
  rewrite (non_compliant_filter _ Hkeys), bind_lift_returned.
  destruct (filter (fun t => flagged t = true) (transaction_container w)) as [|t ts].
  - simpl in Hl. by injection Hl as <-.
  - rewrite Hl, bind_lift_returned. destruct lines as [|line lines]; [done|].
    unfold chat_answer.
    by destruct (perform_query_chat E (detailed_prompt (line :: lines))).
Qed.

Lemma non_compliant_upsert (ts : list dict) (t : dict) v :
  all_compliant ts ->
  t !! "is_compliant" = Some v ->
  non_compliant (upsert doc_id t ts) = Returned (if py_bool v then [] else [t]).
Proof.
  intros Hall Hv. induction Hall as [|t0 ts (v0 & Hv0 & Hb0) Hts IH]; simpl.
  - rewrite Hv. by destruct (py_bool v).
  - destruct (decide (doc_id t0 = doc_id t)); simpl.
    + rewrite Hv, (non_compliant_all_compliant _ Hts). by destruct (py_bool v).
    + rewrite Hv0, IH, Hb0. by destruct (py_bool v).
Qed.

(** X18. Audit, then report.  When all stored transactions are compliant
    and one more is audited, the next report is the sentinel if the audit
    found no issue; if it found one, the chat model is asked about exactly
    that transaction, and the others do not appear in the prompt.  (For rule
    texts that write nothing and raise only [Exception]s.) *)
Theorem report_after_audit fuel E E' date description a f w :
  all_compliant (transaction_container w) ->
  py_float a = Returned f ->
  upsert_item_fault E = None ->
  Forall (effect_free (rule_container w)) (rule_container w) ->
  Forall (raises_only_Exception (rule_container w)) (rule_container w) ->
  length (rule_container w) <= fuel ->
  exists issues line w',
    run_partial (audit_transaction fuel E (audit_payload date description a)) w
      = Some (Returned (audit_response (PyStr (uuid4 E)) issues), w') /\
    detailed_transaction
      (stored_transaction issues (new_transaction (uuid4 E) date description f))
      = Returned line /\
    run (generate_report E') w'
      = (match issues with
         | [] => Returned no_violations
         | _ => chat_answer E' [line]
         end, w').
Proof.
  intros Hall Hf He Hfree Hexc Hfuel.
  pose proof (audit_transaction_effect_free fuel E date description a f w
                Hf He Hfree Hexc Hfuel) as Hrun.
  set (issues := map rule_description
                   (violated_rules (rule_container w) (rule_container w)
                      (new_transaction (uuid4 E) date description f) [] w)) in *.
  clearbody issues.
  set (t := stored_transaction issues (new_transaction (uuid4 E) date description f)) in *.
  assert (Hc : complete t).
  { unfold complete, t, stored_transaction, new_transaction.
    repeat (apply Forall_cons; split; [by simplify_map_eq|]). constructor. }
  assert (Hv : t !! "is_compliant" = Some (PyBool (Nat.eqb (length issues) 0))).
  { unfold t, stored_transaction. by simplify_map_eq. }
  destruct (complete_detailed_transaction t Hc) as [line Hline].
  eexists issues, line, _. split; [exact Hrun|]. split; [exact Hline|].
  unfold run, generate_report, bind at 1, transaction_container_read_all_items. simpl.
  rewrite (non_compliant_upsert _ _ _ Hall Hv), bind_lift_returned.
  destruct issues as [|d ds]; simpl; [done|].
  rewrite Hline. cbv iota. rewrite bind_lift_returned. unfold chat_answer.
  by destruct (perform_query_chat E' (detailed_prompt [line])).
Qed.

End ReportEdges.

(** ** update_compliance and check_compliance together *)

Lemma send_rule_world (r : rule_request) w :
  send_rule r w
    = World (transaction_container w)
            (upsert (fun r => Some (rule_id r)) (requested_rule r) (rule_container w))
            (log w).
Proof.
  destruct r as [[id description] check]. unfold send_rule, requested_rule. simpl.
  rewrite (update_compliance_run _ _ description check);
    [done| |]; unfold getitem, rule_payload; by simplify_map_eq.
Qed.

Lemma send_rules_appends (rs : list rule_request) w :
  NoDup (map (fun r : rule_request => r.1.1) rs) ->
  (forall old r, old ∈ rule_container w -> r ∈ rs -> rule_id old <> r.1.1) ->
  send_rules rs w
    = World (transaction_container w) (rule_container w ++ map requested_rule rs) (log w).
Proof.
  revert w. induction rs as [|r rs IH]; intros w Hnd Hfresh; simpl.
  - rewrite app_nil_r. by destruct w.
  - apply NoDup_cons in Hnd as [Hr Hnd].
    rewrite send_rule_world, upsert_fresh.
    + rewrite IH; simpl; [by rewrite <- app_assoc|done|].
      intros old r' Hold Hr'. apply elem_of_app in Hold as [Hold|Hold].
      * apply Hfresh; [done|by apply list_elem_of_further].
      * apply list_elem_of_singleton in Hold as ->. unfold requested_rule. simpl.
        intros Heq. apply Hr. rewrite Heq. apply list_elem_of_In.
        apply (in_map (fun r : rule_request => r.1.1) rs r'). by apply list_elem_of_In.
    + apply Forall_forall. intros old Hold Heq. injection Heq as Heq.
      apply (Hfresh old r Hold); [apply list_elem_of_here|done].
Qed.

Section Order.
Context `{RT : PyRuntime}.

(** X19. A rule that has been added is checked from then on: after a
    series of upserts with new ids, the rule container holds the old rules
    and the new ones, the transactions are untouched, and the next check
    logs "Checking rule" for every one of them, once each.  (For rule texts
    that write nothing and raise only [Exception]s.) *)
Theorem added_rules_are_checked fuel (rs : list rule_request) w
    (transaction : dict) a f :
  NoDup (map (fun r : rule_request => r.1.1) rs) ->
  (forall old r, old ∈ rule_container w -> r ∈ rs -> rule_id old <> r.1.1) ->
  transaction !! "amount" = Some a ->
  py_float a = Returned f ->
  Forall (effect_free (rule_container (send_rules rs w))) (rule_container (send_rules rs w)) ->
  Forall (raises_only_Exception (rule_container (send_rules rs w)))
         (rule_container (send_rules rs w)) ->
  length (rule_container (send_rules rs w)) <= fuel ->
  transaction_container (send_rules rs w) = transaction_container w /\
  (forall old, old ∈ rule_container w -> old ∈ rule_container (send_rules rs w)) /\
  (forall r, r ∈ rs -> requested_rule r ∈ rule_container (send_rules rs w)) /\
  exists issues l,
    run_partial (check_compliance fuel transaction) (send_rules rs w)
      = Some (Returned (issues, <["amount" := PyFloat f]> transaction),
              logged (send_rules rs w) l) /\
    (forall old, old ∈ rule_container w -> rule_description old ∈ checked l) /\
    (forall r, r ∈ rs -> r.1.2 ∈ checked l) /\
    length (checked l) = length (rule_container w) + length rs.
Proof.
  intros Hnd Hfresh Ha Hf Hfree Hexc Hfuel.
  rewrite (check_compliance_effect_free _ _ _ _ _ Ha Hf Hfree Hexc Hfuel).
  assert (Hw : rule_container (send_rules rs w) = rule_container w ++ map requested_rule rs)
    by (by rewrite (send_rules_appends rs w Hnd Hfresh)).
  split; [by rewrite (send_rules_appends rs w Hnd Hfresh)|].
  split; [intros old Hold; rewrite Hw; apply elem_of_app; by left|].
  split.
  { intros r Hr. rewrite Hw. apply elem_of_app. right.
    apply list_elem_of_In, in_map. by apply list_elem_of_In. }
  eexists _, _. split; [reflexivity|].
  rewrite checked_loop_log, Hw, map_app, map_map.
  split; [|split].
  - intros old Hold. apply elem_of_app. left.
    apply list_elem_of_In, in_map. by apply list_elem_of_In.
  - intros r Hr. apply elem_of_app. right.
    apply list_elem_of_In.
    apply (in_map (fun r : rule_request => rule_description (requested_rule r)) rs r).
    by apply list_elem_of_In.
  - by rewrite length_app, !length_map.
Qed.

End Order.

(** ** Start of the process *)

Lemma py_not_env_false v :
  py_not_env v = false <-> exists s, v = Some s /\ s <> "".
Proof.
  destruct v as [s|]; simpl.
  - rewrite String.eqb_neq. split; [by exists s|]. by intros (s' & [= <-] & Hs).
  - split; [done|]. by intros (s & Hs & _).
Qed.

(** X20. The process starts only with all five settings: the check of
    lines 20-21 passes exactly when each of the five variables is set to a
    string that is not empty.  An empty value counts like a missing one, and
    in both cases the ValueError of line 21 is raised. *)
Theorem environment_must_be_complete (getenv : string -> option string) :
  (check_environment getenv = Returned tt
   <-> Forall (fun name => exists s, getenv name = Some s /\ s <> "") required_variables)
  /\
  (check_environment getenv = Returned tt \/
   check_environment getenv
     = Raised (Exn ValueError
                 "Environment variables for Azure OpenAI and Cosmos DB must be set.")).
Proof.
  unfold check_environment, required_variables. split.
  - rewrite !Forall_cons, <- !py_not_env_false.
    destruct (py_not_env (getenv "AZURE_OPENAI_ENDPOINT")),
             (py_not_env (getenv "AZURE_OPENAI_KEY")),
             (py_not_env (getenv "AZURE_OPENAI_DEPLOYMENT_NAME")),
             (py_not_env (getenv "COSMOS_DB_ENDPOINT")),
             (py_not_env (getenv "COSMOS_DB_KEY")); simpl;
      split; try done; intros (? & ? & ? & ? & ? & _); done.
  - destruct (_ || _); [by right|by left].
Qed.

(** ** The further properties at concrete inputs *)

(** The amount "abc". *)
Lemma unparsable_amount_is_answered_400_witness :
  float_of_str (PyRuntime := excerpt) "abc" = None /\
  run_partial (audit_transaction (RT := excerpt) 3 (quiet "t1") (laptop (PyStr "abc")))
      three_rules
    = Some (Returned (Response (jsonify [("error", PyStr "Invalid amount format")]) 400),
            logged three_rules
              [LogError (ErrorConvertingAmount
                           (Exn ValueError "could not convert string to float: 'abc'"))]).
Proof.
  split; [reflexivity|].
  apply (unparsable_amount_is_answered_400 (RT := excerpt) 3 (quiet "t1")
           (laptop (PyStr "abc")) (PyStr "2024-01-01") (PyStr "laptop") "abc" three_rules);
    vm_compute; reflexivity.
Defined.

(** A payload with a date and without description and amount: the key
    named is description. *)
Lemma missing_field_raises_KeyError_witness :
  (<["date" := PyStr "2024-01-01"]> (∅ : dict)) !! "amount" = None /\
  exists key,
    first_missing (<["date" := PyStr "2024-01-01"]> (∅ : dict)) = Some key /\
    key = "description" /\
    run_partial (audit_transaction (RT := excerpt) 3 (quiet "t1")
                   (PyDict (<["date" := PyStr "2024-01-01"]> (∅ : dict)))) three_rules
      = Some (Raised (Exn KeyError ("'" +:+ key +:+ "'")), three_rules).
Proof.
  assert (Ha : (<["date" := PyStr "2024-01-01"]> (∅ : dict)) !! "amount" = None)
    by (vm_compute; reflexivity).
  split; [exact Ha|].
  destruct (missing_field_raises_KeyError (RT := excerpt) 3 (quiet "t1")
              (<["date" := PyStr "2024-01-01"]> (∅ : dict)) three_rules
              (or_intror (or_intror Ha)))
    as (key & Hkey & _ & Hrun).
  exists key. split; [exact Hkey|]. split; [|exact Hrun].
  vm_compute in Hkey. by injection Hkey.
Defined.

(** The store is unavailable. *)
Lemma refused_write_is_answered_500_witness :
  py_float (RT := excerpt) (PyStr "500.0") = Returned f500 /\
  upsert_item_fault (refusing "t1") = Some service_unavailable /\
  is_Exception service_unavailable = true /\
  length (rule_container three_rules) <= 3 /\
  exists l,
    run_partial (audit_transaction (RT := excerpt) 3 (refusing "t1")
                   (laptop (PyStr "500.0")))
        three_rules
      = Some (Returned (Response (jsonify [("error", PyStr (exn_str service_unavailable))])
                          500),
              logged three_rules (l ++ [LogError (ErrorSubmittingData service_unavailable)])) /\
    checked l = map rule_description (rule_container three_rules).
Proof.
  assert (Hle : length (rule_container three_rules) <= 3) by (simpl; lia).
  split; [reflexivity|]. split; [reflexivity|]. split; [reflexivity|]. split; [exact Hle|].
  exact (refused_write_is_answered_500 (RT := excerpt) 3 (refusing "t1")
           (PyStr "2024-01-01") (PyStr "laptop") (PyStr "500.0") f500 three_rules
           service_unavailable eq_refl eq_refl eq_refl
           (excerpt_all_effect_free _ _) (excerpt_all_raise_only_Exception _ _) Hle).
Defined.




(** No rule at all. *)
Lemma no_rules_means_compliant_witness :
  rule_container empty_world = [] /\
  py_float (RT := excerpt) (PyStr "500.0") = Returned f500 /\
  upsert_item_fault (quiet "t1") = None /\
  fst <$> run_partial (audit_transaction (RT := excerpt) 0 (quiet "t1")
                         (laptop (PyStr "500.0")))
            empty_world
    = Some (Returned (Response (jsonify [("transaction_id", PyStr "t1");
                                         ("compliance_issues", PyList []);
                                         ("is_compliant", PyBool true)]) 201)).
Proof.
  split; [reflexivity|]. split; [reflexivity|]. split; [reflexivity|].
  unfold laptop.
  rewrite (no_rules_means_compliant (RT := excerpt) 0 (quiet "t1")
             (PyStr "2024-01-01") (PyStr "laptop") (PyStr "500.0") f500 empty_world
             eq_refl eq_refl eq_refl).
  reflexivity.
Defined.

Lemma stored_transaction_has_the_fields_sent_witness :
  py_float (RT := excerpt) (PyStr "500.0") = Returned f500 /\
  upsert_item_fault (quiet "t1") = None /\
  length (rule_container three_rules) <= 3 /\
  exists (t : dict) o w',
    run_partial (audit_transaction (RT := excerpt) 3 (quiet "t1")
                   (audit_payload (PyStr "2024-01-01") (PyStr "laptop") (PyStr "500.0")))
        three_rules
      = Some (o, w') /\
    t ∈ transaction_container w' /\
    t !! "id" = Some (PyStr (uuid4 (quiet "t1"))) /\
    t !! "date" = Some (PyStr "2024-01-01") /\
    t !! "description" = Some (PyStr "laptop") /\
    t !! "amount" = Some (PyFloat f500) /\
    consistent t.
Proof.
  assert (Hle : length (rule_container three_rules) <= 3) by (simpl; lia).
  split; [reflexivity|]. split; [reflexivity|]. split; [exact Hle|].
  exact (stored_transaction_has_the_fields_sent (RT := excerpt) 3 (quiet "t1")
           (PyStr "2024-01-01") (PyStr "laptop") (PyStr "500.0") f500 three_rules
           eq_refl eq_refl (excerpt_all_effect_free _ _)
           (excerpt_all_raise_only_Exception _ _) Hle).
Defined.

(** [check_compliance] called with the amount "abc". *)
Lemma check_compliance_reports_bad_amount_witness :
  (<["amount" := PyStr "abc"]> (laptop_transaction "t1" f500)) !! "amount"
    = Some (PyStr "abc") /\
  float_of_str (PyRuntime := excerpt) "abc" = None /\
  run_partial (check_compliance (RT := excerpt) 3
                 (<["amount" := PyStr "abc"]> (laptop_transaction "t1" f500))) three_rules
    = Some (Returned ([PyStr "Invalid transaction amount format"],
                      <["amount" := PyStr "abc"]> (laptop_transaction "t1" f500)),
            logged three_rules
              [LogError (ErrorConvertingAmount
                           (Exn ValueError "could not convert string to float: 'abc'"))]).
Proof.
  split; [vm_compute; reflexivity|]. split; [reflexivity|].
  apply (check_compliance_reports_bad_amount (RT := excerpt) 3
           (<["amount" := PyStr "abc"]> (laptop_transaction "t1" f500)) "abc" three_rules);
    vm_compute; reflexivity.
Defined.

Lemma check_compliance_without_amount_witness :
  unaudited_transaction !! "amount" = None /\
  run_partial (check_compliance (RT := excerpt) 3 unaudited_transaction) three_rules
    = Some (Raised (Exn KeyError "'amount'"), three_rules).
Proof.
  split; [vm_compute; reflexivity|].
  apply (check_compliance_without_amount (RT := excerpt)). vm_compute. reflexivity.
Defined.

(** A rule whose check is the number 5. *)
Lemma rule_check_must_be_a_string_witness :
  (forall s, rule_check (numeric_check "r1") <> PyStr s) /\
  exists e,
    exn_class e = AttributeError /\
    run_partial (rule_step (RT := excerpt)
                   (Frame (laptop_transaction "t1" f500) [rule_dict (numeric_check "r1")] [])
                   (rule_dict (numeric_check "r1"))) empty_world =
      Some (Returned (Frame (laptop_transaction "t1" f500)
                        [rule_dict (numeric_check "r1")] []),
            logged empty_world
              [LogInfo (CheckingRule (rule_description (numeric_check "r1")));
               LogError (ErrorEvaluatingRule (rule_description (numeric_check "r1")) e)]).
Proof.
  assert (H : forall s, rule_check (numeric_check "r1") <> PyStr s) by (intros s; discriminate).
  split; [exact H|].
  exact (rule_check_must_be_a_string (RT := excerpt) [rule_dict (numeric_check "r1")]
           (numeric_check "r1") (laptop_transaction "t1" f500) [] empty_world H).
Defined.


Lemma issues_are_the_logged_violations_witness :
  laptop_transaction "t1" f500 !! "amount" = Some (PyFloat f500) /\
  length (rule_container three_rules) <= 3 /\
  exists l,
    run_partial (check_compliance (RT := excerpt) 3 (laptop_transaction "t1" f500))
        three_rules
      = Some (Returned (violations l,
                        <["amount" := PyFloat f500]> (laptop_transaction "t1" f500)),
              logged three_rules l) /\
    checked l = map rule_description (rule_container three_rules).
Proof.
  assert (Hle : length (rule_container three_rules) <= 3) by (simpl; lia).
  split; [reflexivity|]. split; [exact Hle|].
  exact (issues_are_the_logged_violations (RT := excerpt) 3
           (laptop_transaction "t1" f500) (PyFloat f500) f500 three_rules eq_refl eq_refl
           (excerpt_all_effect_free _ _) (excerpt_all_raise_only_Exception _ _) Hle).
Defined.

Lemma issues_are_descriptions_of_stored_rules_witness :
  py_float (RT := excerpt) (PyStr "500.0") = Returned f500 /\
  upsert_item_fault (quiet "t1") = None /\
  length (rule_container three_rules) <= 3 /\
  exists issues,
    fst <$> run_partial (audit_transaction (RT := excerpt) 3 (quiet "t1")
                           (audit_payload (PyStr "2024-01-01") (PyStr "laptop")
                              (PyStr "500.0")))
              three_rules
      = Some (Returned (audit_response (PyStr (uuid4 (quiet "t1"))) issues)) /\
    length issues <= length (rule_container three_rules) /\
    (forall d, d ∈ issues ->
       exists rule, rule ∈ rule_container three_rules /\ rule_description rule = d).
Proof.
  assert (Hle : length (rule_container three_rules) <= 3) by (simpl; lia).
  split; [reflexivity|]. split; [reflexivity|]. split; [exact Hle|].
  exact (issues_are_descriptions_of_stored_rules (RT := excerpt) 3 (quiet "t1")
           (PyStr "2024-01-01") (PyStr "laptop") (PyStr "500.0") f500 three_rules
           eq_refl eq_refl (excerpt_all_effect_free _ _)
           (excerpt_all_raise_only_Exception _ _) Hle).
Defined.

(** A document without is_compliant behind a compliant one. *)
Lemma report_needs_is_compliant_everywhere_witness :
  unaudited_transaction
    ∈ transaction_container (World [compliant_transaction; unaudited_transaction] [] []) /\
  unaudited_transaction !! "is_compliant" = None /\
  run (generate_report (RT := excerpt) echo)
      (World [compliant_transaction; unaudited_transaction] [] [])
    = (Raised (Exn KeyError "'is_compliant'"),
       World [compliant_transaction; unaudited_transaction] [] []).
Proof.
  assert (Hin : unaudited_transaction
                  ∈ transaction_container
                      (World [compliant_transaction; unaudited_transaction] [] []))
    by (apply list_elem_of_further, list_elem_of_here).
  assert (Hnone : unaudited_transaction !! "is_compliant" = None)
    by (vm_compute; reflexivity).
  split; [exact Hin|]. split; [exact Hnone|].
  exact (report_needs_is_compliant_everywhere (RT := excerpt) echo _ _ Hin Hnone).
Defined.

Lemma sample_documents_complete :
  Forall complete [compliant_transaction; violating_transaction].
Proof.
  repeat (apply Forall_cons; split); try apply Forall_nil;
    by (eexists; vm_compute; reflexivity).
Qed.

(** One compliant and one flagged document, and a chat model that fails:
    one line goes into the prompt. *)
Lemma report_on_complete_documents_witness :
  Forall complete
    (transaction_container (World [compliant_transaction; violating_transaction] [] [])) /\
  exists lines,
    length lines = 1 /\
    run (generate_report (RT := excerpt) failing_chat)
        (World [compliant_transaction; violating_transaction] [] [])
      = (match lines with
         | [] => Returned no_violations
         | _ => chat_answer failing_chat lines
         end, World [compliant_transaction; violating_transaction] [] []).
Proof.
  split; [exact sample_documents_complete|].
  destruct (report_on_complete_documents (RT := excerpt) failing_chat
              (World [compliant_transaction; violating_transaction] [] [])
              sample_documents_complete) as (lines & _ & Hlen & Hrun).
  exists lines. split; [exact Hlen|exact Hrun].
Defined.

Lemma report_after_audit_witness :
  all_compliant (transaction_container (World [compliant_transaction] [over_1000 "r1"] [])) /\
  py_float (RT := excerpt) (PyStr "500.0") = Returned f500 /\
  length (rule_container (World [compliant_transaction] [over_1000 "r1"] [])) <= 1 /\
  exists issues line w',
    run_partial (audit_transaction (RT := excerpt) 1 (quiet "t1")
                   (audit_payload (PyStr "2024-01-01") (PyStr "laptop") (PyStr "500.0")))
        (World [compliant_transaction] [over_1000 "r1"] [])
      = Some (Returned (audit_response (PyStr (uuid4 (quiet "t1"))) issues), w') /\
    detailed_transaction (RT := excerpt)
      (stored_transaction issues
         (new_transaction (uuid4 (quiet "t1")) (PyStr "2024-01-01") (PyStr "laptop") f500))
      = Returned line /\
    run (generate_report (RT := excerpt) echo) w'
      = (match issues with
         | [] => Returned no_violations
         | _ => chat_answer echo [line]
         end, w').
Proof.
  assert (Hall : all_compliant
                   (transaction_container
                      (World [compliant_transaction] [over_1000 "r1"] []))).
  { repeat constructor. exists (PyBool true). split; vm_compute; reflexivity. }
  assert (Hle : length (rule_container (World [compliant_transaction] [over_1000 "r1"] []))
                <= 1) by (simpl; lia).
  split; [exact Hall|]. split; [reflexivity|]. split; [exact Hle|].
  exact (report_after_audit (RT := excerpt) 1 (quiet "t1") echo
           (PyStr "2024-01-01") (PyStr "laptop") (PyStr "500.0") f500
           (World [compliant_transaction] [over_1000 "r1"] []) Hall eq_refl eq_refl
           (excerpt_all_effect_free _ _) (excerpt_all_raise_only_Exception _ _) Hle).
Defined.

(** Two rules added to an empty container. *)
Lemma added_rules_are_checked_witness :
  NoDup (map (fun r : rule_request => r.1.1)
           [("r1", PyStr "Amount must exceed 1000", PyStr "{transaction[amount]} > 1000");
            ("r2", PyStr "foo must exceed 10", PyStr "{transaction[foo]} > 10")]) /\
  laptop_transaction "t1" f500 !! "amount" = Some (PyFloat f500) /\
  exists issues l,
    run_partial (check_compliance (RT := excerpt) 2 (laptop_transaction "t1" f500))
        (send_rules
           [("r1", PyStr "Amount must exceed 1000", PyStr "{transaction[amount]} > 1000");
            ("r2", PyStr "foo must exceed 10", PyStr "{transaction[foo]} > 10")] empty_world)
      = Some (Returned (issues, <["amount" := PyFloat f500]> (laptop_transaction "t1" f500)),
              logged
                (send_rules
                   [("r1", PyStr "Amount must exceed 1000",
                     PyStr "{transaction[amount]} > 1000");
                    ("r2", PyStr "foo must exceed 10", PyStr "{transaction[foo]} > 10")]
                   empty_world) l) /\
    length (checked l) = 2.
Proof.
  assert (Hnd : NoDup (map (fun r : rule_request => r.1.1)
           [("r1", PyStr "Amount must exceed 1000", PyStr "{transaction[amount]} > 1000");
            ("r2", PyStr "foo must exceed 10", PyStr "{transaction[foo]} > 10")])).
  { simpl. apply NoDup_cons. split.
    - intros H. apply list_elem_of_singleton in H. discriminate.
    - apply NoDup_singleton. }
  split; [exact Hnd|]. split; [reflexivity|].
  destruct (added_rules_are_checked (RT := excerpt) 2
              [("r1", PyStr "Amount must exceed 1000", PyStr "{transaction[amount]} > 1000");
               ("r2", PyStr "foo must exceed 10", PyStr "{transaction[foo]} > 10")]
              empty_world (laptop_transaction "t1" f500) (PyFloat f500) f500 Hnd)
    as (_ & _ & _ & issues & l & Hrun & _ & _ & Hlen).
  - intros old r Hold. by apply elem_of_nil in Hold.
  - reflexivity.
  - reflexivity.
  - apply excerpt_all_effect_free.
  - apply excerpt_all_raise_only_Exception.
  - vm_compute. lia.
  - exists issues, l. split; [exact Hrun|exact Hlen].
Defined.

(** With the five settings the process starts; with one of them set to the
    empty string it does not. *)
Example full_environment_passes :
  check_environment full_environment = Returned tt /\
  check_environment
    (fun name => if decide (name = "COSMOS_DB_KEY") then Some "" else full_environment name)
    = Raised (Exn ValueError
                "Environment variables for Azure OpenAI and Cosmos DB must be set.").
Proof. split; vm_compute; reflexivity. Qed.
